(** * humblebundle-ebook-downloader: the download orchestration of index.js

    A shallow embedding of the functions of [index.js] that decide which
    remote assets qualify, how a format label is normalised, how one asset
    is materialised on disk and how the batch of downloads is driven, with
    the properties of the specification stated over that embedding. *)

From Stdlib Require Import String Ascii List ZArith Bool Lia.
From stdpp Require Import base strings gmap list.

Import ListNotations.
Local Open Scope string_scope.
Local Open Scope list_scope.

(** ** JavaScript strings

    Strings are modelled as sequences of 8-bit code units.  [toLowerCase]
    maps the letters [A]..[Z] to [a]..[z] and leaves every other code unit
    alone, which is what [String.prototype.toLowerCase] does on ASCII
    text (the vendor's format labels). *)

Definition lower_ascii (c : ascii) : ascii :=
  let n := nat_of_ascii c in
  if (65 <=? n)%nat && (n <=? 90)%nat then ascii_of_nat (n + 32) else c.

Fixpoint toLowerCase (s : string) : string :=
  match s with
  | EmptyString => EmptyString
  | String c rest => String (lower_ascii c) (toLowerCase rest)
  end.

(** [a === b] on two strings. *)
Definition str_eq (a b : string) : bool := String.eqb a b.

(** [list.includes(x)] on an array of strings. *)
Definition includes (l : list string) (x : string) : bool :=
  existsb (str_eq x) l.

(** [Array.prototype.sort()] without a comparator orders strings by code
    units; an insertion sort with the same order gives the same array
    (the order is total, so the sorted array is unique). *)
Fixpoint sort_insert (x : string) (l : list string) : list string :=
  match l with
  | [] => [x]
  | y :: rest => if String.leb x y then x :: l else y :: sort_insert x rest
  end.

Definition sort (l : list string) : list string :=
  fold_right sort_insert [] l.

(** [list.join(sep)]. *)
Fixpoint join (sep : string) (l : list string) : string :=
  match l with
  | [] => ""
  | [x] => x
  | x :: rest => x ++ sep ++ join sep rest
  end.

(** ** Formats (index.js, lines 26-38 and 341-362) *)

Definition SUPPORTED_FORMATS : list string :=
  ["epub"; "mobi"; "pdf"; "pdf_hd"; "prc"; "cbz"; "zip"; "txt"; "csv"; "iso"].

Definition ALLOWED_FORMATS : list string :=
  sort (SUPPORTED_FORMATS ++ ["all"]).

Definition normalizeFormat (format : string) : string :=
  let l := toLowerCase format in
  if str_eq l ".cbz" then "cbz"
  else if str_eq l "pdf (hq)" then "pdf_hd"
  else if str_eq l "pdf (hd)" then "pdf_hd"
  else if str_eq l "download" then "pdf"
  else toLowerCase format.

(** [util.format(".%s", format)] on a string is ["." + format]; note that
    the default branch uses [format] itself, not its lower-cased form. *)
Definition getExtension (format : string) : string :=
  if str_eq (toLowerCase format) "pdf_hd" then " (hd).pdf"
  else "." ++ format.

(** Two labels that differ by the case of their letters only. *)
Definition same_ignoring_case (a b : string) : Prop :=
  toLowerCase a = toLowerCase b.

(** ** Configuration validation in [main] (lines 571-577 and 615-620)

    A value that may be [undefined] is an [option].  [indexOf] uses strict
    equality, so [undefined] is never found in an array of strings. *)

Fixpoint indexOf_from (l : list string) (x : string) (i : Z) : Z :=
  match l with
  | [] => (-1)%Z
  | y :: rest => if str_eq y x then i else indexOf_from rest x (i + 1)%Z
  end.

Definition indexOf (l : list string) (x : option string) : Z :=
  match x with
  | Some s => indexOf_from l s 0%Z
  | None => (-1)%Z
  end.

(** [a ?? b]. *)
Definition nullish {A} (a : option A) (b : option A) : option A :=
  match a with Some _ => a | None => b end.

Inductive Validation :=
  | InvalidFormatProvided   (* line 574, then [return] *)
  | InvalidFormatSelected   (* line 618, then [commander.help()] exits *)
  | Proceeds.               (* reaches [validateSession], line 622 *)

(** What [main] sees of its inputs for the format: the [format] key of the
    configuration file ([options.format] after [loadConfig]), the property
    [commander.format] at line 573 (the command line has not been parsed
    there) and the [--format] argument of the command line, if any.  After
    [parse], [options.format] is the argument or else the declared default
    [config.format ?? "epub"] (lines 594-600 and 615). *)
Record FormatInputs := {
  config_format : option string;
  commander_format_before_parse : option string;
  cli_format : option string
}.

Definition resolved_format (i : FormatInputs) : option string :=
  nullish (cli_format i) (nullish (config_format i) (Some "epub")).

Definition main_validation (i : FormatInputs) : Validation :=
  if (indexOf ALLOWED_FORMATS
        (nullish (commander_format_before_parse i) (config_format i)) =? -1)%Z
  then InvalidFormatProvided
  else if (indexOf ALLOWED_FORMATS (resolved_format i) =? -1)%Z
  then InvalidFormatSelected
  else Proceeds.

(** ** The vendor's order documents

    The JSON documents are duck-typed: a field the code reaches through
    [?.] may be missing ([None]), and so may an entry of an array. *)

Record Url := { web : string }.

Record DownloadStruct := {
  ds_name : option string;        (* [name]: the raw format label *)
  ds_url : option Url;            (* [url] *)
  ds_sha1 : option string;        (* [sha1] *)
  ds_md5 : option string;         (* [md5] *)
  ds_human_size : option string   (* [human_size] *)
}.

Record Download := {
  d_platform : option string;                                (* [platform] *)
  d_download_struct : option (list (option DownloadStruct))  (* [download_struct] *)
}.

Record Subproduct := {
  sp_human_name : string;                        (* [human_name] *)
  sp_downloads : option (list (option Download)) (* [downloads] *)
}.

Record Order := {
  o_human_name : string;                              (* [product.human_name] *)
  o_subproducts : option (list (option Subproduct))   (* [subproducts] *)
}.

(** One entry of [downloads] in [downloadBundles] (lines 498-502). *)
Record Task := {
  t_bundle : string;            (* [bundle] *)
  t_download : DownloadStruct;  (* [download] *)
  t_name : string               (* [name] *)
}.

(** JavaScript truthiness of a value that is a string or missing. *)
Definition truthy (v : option string) : bool :=
  match v with
  | Some s => negb (str_eq s "")
  | None => false
  end.

(** Truthiness of a value that is an object or missing. *)
Definition present {A} (v : option A) : bool :=
  match v with
  | Some _ => true
  | None => false
  end.

(** ** [flatten] (lines 333-335) and the filter of [fetchOrders] (287-294) *)

#[local] Set Warnings "-register-all".

Inductive Nested (A : Type) : Type :=
  | Leaf (a : A)
  | Arr (l : list (Nested A)).
Arguments Leaf {A} a.
Arguments Arr {A} l.

(** [Array.isArray(b) ? flatten(b) : b], then [a.concat(...)]. *)
Fixpoint flatten_item {A} (b : Nested A) : list A :=
  match b with
  | Leaf a => [a]
  | Arr l => fold_left (fun a b' => a ++ flatten_item b') l []
  end.

Definition flatten {A} (l : list (Nested A)) : list A :=
  fold_left (fun a b => a ++ flatten_item b) l [].

(** [order?.subproducts?.flatMap(subproduct =>
       subproduct?.downloads?.map(download => download?.platform) ?? []) ?? []] *)
Definition order_platforms (order : option Order) : list (option string) :=
  default []
    (subproducts ← order ≫= o_subproducts;
     Some (flat_map
             (fun subproduct : option Subproduct =>
                default []
                  (downloads ← subproduct ≫= sp_downloads;
                   Some (map (fun download : option Download =>
                                download ≫= d_platform) downloads)))
             subproducts)).

(** [list.includes("ebook")] on values that are strings or [undefined]. *)
Definition includes_ebook (l : list (option string)) : bool :=
  existsb (fun p => match p with Some s => str_eq s "ebook" | None => false end) l.

Definition retained (order : option Order) : bool :=
  includes_ebook (flatten (map Leaf (order_platforms order))).

Definition filterOrders (detailedOrders : list (option Order)) : list (option Order) :=
  List.filter retained detailedOrders.

(** Replacing every [download_struct] (the format variants) of an order and
    leaving the platforms alone. *)
Definition replace_structs_download
    (f : Download -> option (list (option DownloadStruct))) (d : Download) : Download :=
  {| d_platform := d_platform d; d_download_struct := f d |}.

Definition replace_structs_subproduct
    (f : Download -> option (list (option DownloadStruct))) (sp : Subproduct) : Subproduct :=
  {| sp_human_name := sp_human_name sp;
     sp_downloads := map (option_map (replace_structs_download f)) <$> sp_downloads sp |}.

Definition replace_structs
    (f : Download -> option (list (option DownloadStruct))) (o : Order) : Order :=
  {| o_human_name := o_human_name o;
     o_subproducts := map (option_map (replace_structs_subproduct f)) <$> o_subproducts o |}.

(** ** Exceptions and results *)

Inductive Exn :=
  | TypeError (what : string)        (* a property of [undefined] or [null] is read *)
  | ReferenceError (ident : string)  (* an identifier that is not in scope is read *)
  | ENOENT (path : string)           (* a file system call on a path with no file *)
  | StreamError                      (* the response body fails before its end *)
  | FetchError.                      (* [fetch] rejects: no response at all *)

Inductive Result (A : Type) : Type :=
  | Ok (a : A)
  | Throw (e : Exn).
Arguments Ok {A} a.
Arguments Throw {A} e.

#[export] Instance Result_ret : MRet Result := fun A a => Ok a.
#[export] Instance Result_bind : MBind Result := fun A B f r =>
  match r with
  | Ok a => f a
  | Throw e => Throw e
  end.

(** Reading a property of a value that may be [undefined] or [null]. *)
Definition deref {A} (what : string) (v : option A) : Result A :=
  match v with
  | Some a => Ok a
  | None => Throw (TypeError what)
  end.

(** ** Resolution of the downloads in [downloadBundles] (lines 466-519) *)

(** The callback of [downloadStructs.filter] (lines 480-495): its verdict,
    and [bundleFormats] after its [push]. *)
Definition filterCallback (format : string) (download : option DownloadStruct)
    (bundleFormats : list string) : bool * list string :=
  if negb (truthy (download ≫= ds_name))
     || negb (present (download ≫= ds_url))
  then (false, bundleFormats)
  else
    let normalizedFormat := normalizeFormat (default "" (download ≫= ds_name)) in
    let bundleFormats' :=
      if negb (includes bundleFormats normalizedFormat)
         && includes SUPPORTED_FORMATS normalizedFormat
      then bundleFormats ++ [normalizedFormat]
      else bundleFormats in
    (str_eq format "all" || str_eq normalizedFormat format, bundleFormats').

(** [downloadStructs.filter(callback)]: the entries the callback keeps (never
    a [null] entry: the callback rejects those first) and [bundleFormats]
    after the last call. *)
Fixpoint filterDownloadStructs (format : string)
    (downloadStructs : list (option DownloadStruct)) (bundleFormats : list string)
    : list DownloadStruct * list string :=
  match downloadStructs with
  | [] => ([], bundleFormats)
  | download :: rest =>
      let '(keep, bundleFormats1) := filterCallback format download bundleFormats in
      let '(kept, bundleFormats2) := filterDownloadStructs format rest bundleFormats1 in
      (match download, keep with
       | Some d, true => d :: kept
       | _, _ => kept
       end, bundleFormats2)
  end.

(** [download.platform === "ebook"]. *)
Definition is_ebook (download : Download) : bool :=
  match d_platform download with
  | Some p => str_eq p "ebook"
  | None => false
  end.

(** [subproduct.downloads.filter(download => download.platform === "ebook")]
    (lines 472-474); a [null] entry makes [download.platform] throw. *)
Fixpoint filterEbook (downloads : list (option Download)) : Result (list Download) :=
  match downloads with
  | [] => Ok []
  | download :: rest =>
      d ← deref "download.platform" download;
      filtered ← filterEbook rest;
      Ok (if is_ebook d then d :: filtered else filtered)
  end.

(** The body of the loop over the subproducts (lines 472-503): the entries
    pushed on [bundleDownloads], and [bundleFormats] afterwards. *)
Definition subproductDownloads (format bundleName : string)
    (subproduct : option Subproduct) (bundleFormats : list string)
    : Result (list Task * list string) :=
  sp ← deref "subproduct.downloads" subproduct;
  downloads ← deref "subproduct.downloads.filter" (sp_downloads sp);
  filteredDownloads ← filterEbook downloads;
  let downloadStructs :=
    flat_map (fun download => default [] (d_download_struct download)) filteredDownloads in
  let '(filteredDownloadStructs, bundleFormats') :=
    filterDownloadStructs format downloadStructs bundleFormats in
  Ok (map (fun filteredDownload =>
             {| t_bundle := bundleName;
                t_download := filteredDownload;
                t_name := sp_human_name sp |}) filteredDownloadStructs,
      bundleFormats').

(** The loop over [bundle.subproducts] (line 471), from given
    [bundleDownloads] and [bundleFormats]. *)
Fixpoint forSubproducts (format bundleName : string)
    (subproducts : list (option Subproduct))
    (bundleDownloads : list Task) (bundleFormats : list string)
    : Result (list Task * list string) :=
  match subproducts with
  | [] => Ok (bundleDownloads, bundleFormats)
  | subproduct :: rest =>
      '(pushed, bundleFormats') ←
        subproductDownloads format bundleName subproduct bundleFormats;
      forSubproducts format bundleName rest (bundleDownloads ++ pushed) bundleFormats'
  end.

(** Lines 467-504 for one bundle. *)
Definition bundleDownloadsOf (format : string) (bundle : Order)
    : Result (list Task * list string) :=
  subproducts ← deref "bundle.subproducts" (o_subproducts bundle);
  forSubproducts format (o_human_name bundle) subproducts [] [].

(** ** The world the downloads run in

    The file system is a finite map from paths to contents (directories are
    not modelled, so [ensureFolderCreated] changes nothing); [downloadErrors]
    is the module-level array of line 43; [requests] is the trace of the
    URLs passed to [fetch], latest first; [console] is what was printed,
    latest first. *)

Record DownloadError := {
  de_webUrl : string;
  de_filePath : string;
  de_status : Z;
  de_statusText : string
}.

(** The body of a response as a stream: the bytes it delivers, and whether
    it then ends or fails. *)
Record Body := { delivered : string; ends : bool }.

Record Response := { status : Z; statusText : string; body : Body }.

(** [response.ok]: the status is in the range 200-299. *)
Definition ok (r : Response) : bool :=
  (200 <=? status r)%Z && (status r <=? 299)%Z.

Inductive FetchOutcome :=
  | Responds (r : Response)
  | Rejects.

(** The progress counters of the messages of lines 536-561 are left out. *)
Inductive LogMsg :=
  | NoBundlesSelected
  | NoDownloadsForBundle (format bundleName formats : string)
  | NoDownloadsFound (format : string)
  | Downloading (t : Task)
  | SkippedDownloading (t : Task)
  | FailedToDownload (webUrl : string) (st : Z) (stText : string)
  | Done
  | DownloadErrors (errors : list DownloadError)
  | CompletedSuccessfully
  | ErrorOccurred (e : Exn).

Record World := {
  files : gmap string string;
  downloadErrors : list DownloadError;
  requests : list string;
  console : list LogMsg
}.

Definition M (A : Type) : Type := World -> Result A * World.

#[export] Instance M_ret : MRet M := fun A a w => (Ok a, w).
#[export] Instance M_bind : MBind M := fun A B f m w =>
  match m w with
  | (Ok a, w') => f a w'
  | (Throw e, w') => (Throw e, w')
  end.

Definition throw {A} (e : Exn) : M A := fun w => (Throw e, w).

Definition liftR {A} (r : Result A) : M A := fun w => (r, w).

(** [try { body } catch (error) { handler }]. *)
Definition try_catch {A} (body : M A) (handler : Exn -> M A) : M A := fun w =>
  match body w with
  | (Ok a, w') => (Ok a, w')
  | (Throw e, w') => handler e w'
  end.

Definition console_log (m : LogMsg) : M unit := fun w =>
  (Ok tt, {| files := files w; downloadErrors := downloadErrors w;
             requests := requests w; console := m :: console w |}).

(** [downloadErrors.push(e)]. *)
Definition downloadErrors_push (e : DownloadError) : M unit := fun w =>
  (Ok tt, {| files := files w; downloadErrors := downloadErrors w ++ [e];
             requests := requests w; console := console w |}).

(** [fs.access(path)]: rejects with [ENOENT] when there is no file. *)
Definition fs_access (path : string) : M unit := fun w =>
  match files w !! path with
  | Some _ => (Ok tt, w)
  | None => (Throw (ENOENT path), w)
  end.

(** Reading a whole file through [createReadStream]. *)
Definition fs_read (path : string) : M string := fun w =>
  match files w !! path with
  | Some content => (Ok content, w)
  | None => (Throw (ENOENT path), w)
  end.

(** [fs.unlink(path)]: rejects with [ENOENT] when there is no file. *)
Definition fs_unlink (path : string) : M unit := fun w =>
  match files w !! path with
  | Some _ =>
      (Ok tt, {| files := delete path (files w); downloadErrors := downloadErrors w;
                 requests := requests w; console := console w |})
  | None => (Throw (ENOENT path), w)
  end.

(** Piping a body into [createWriteStream(path)]: the file is created or
    truncated and receives what the body delivers; the promise resolves
    when the body ends and rejects when it fails, and nothing removes the
    file then. *)
Definition pipe_to_file (b : Body) (path : string) : M unit := fun w =>
  let w' := {| files := <[path := delivered b]> (files w);
               downloadErrors := downloadErrors w;
               requests := requests w; console := console w |} in
  if ends b then (Ok tt, w') else (Throw StreamError, w').

(** [fs.mkdir(downloadPath, { recursive: true })] (lines 337-339). *)
Definition ensureFolderCreated (downloadPath : string) : M unit := mret tt.

Record Options := {
  downloadFolder : string;
  downloadLimit : nat;
  format : string
}.

Inductive HashType := Sha1 | Md5.

Inductive Exit :=
  | ExitNormally
  | ExitFailure.   (* [process.exit(1)], line 646 *)

Section Engine.

(** What the program takes from its libraries and its surroundings: the hex
    digests of [crypto], [sanitize-filename], [path.resolve] on two
    segments, [String.prototype.trim], the answer of the remote service to
    a request for a URL (the same at every request: the remote assets do not
    change during a run), and the resolved [options]. *)
Variable sha1_hex md5_hex : string -> string.
Variable sanitizeFilename : string -> string.
Variable path_resolve : string -> string -> string.
Variable trim : string -> string.
Variable remote : string -> FetchOutcome.
Variable options : Options.

Definition createHash (hashType : HashType) : string -> string :=
  match hashType with
  | Sha1 => sha1_hex
  | Md5 => md5_hex
  end.

(** [download[hashType]]. *)
Definition advertised (download : DownloadStruct) (hashType : HashType) : option string :=
  match hashType with
  | Sha1 => ds_sha1 download
  | Md5 => ds_md5 download
  end.

(** [hash.read() === hashToVerify]: a digest never equals [undefined]. *)
Definition digest_eq (digest : string) (hashToVerify : option string) : bool :=
  match hashToVerify with
  | Some h => str_eq digest h
  | None => false
  end.

(** Lines 364-392. *)
Definition checkSignatureMatch (filePath : string) (download : DownloadStruct) : M bool :=
  try_catch
    (fs_access filePath;;
     let hashType := if truthy (ds_sha1 download) then Sha1 else Md5 in
     let hashToVerify := advertised download hashType in
     content ← fs_read filePath;
     mret (digest_eq (createHash hashType content) hashToVerify))
    (fun error =>
       match error with
       | ENOENT _ => mret false
       | _ => throw error
       end).

(** [fetch(url)]. *)
Definition fetch (u : string) : M Response := fun w =>
  let w' := {| files := files w; downloadErrors := downloadErrors w;
               requests := u :: requests w; console := console w |} in
  match remote u with
  | Responds r => (Ok r, w')
  | Rejects => (Throw FetchError, w')
  end.

(** Lines 394-405. *)
Definition downloadFile (response : Response) (filePath : string) : M unit :=
  pipe_to_file (body response) filePath.

(** [download.url.web]. *)
Definition url_web (download : DownloadStruct) : M string :=
  url ← liftR (deref "download.url.web" (ds_url download));
  mret (web url).

(** Lines 407-420. *)
Definition handleFileDownloadError (download : DownloadStruct) (filePath : string)
    (response : Response) : M unit :=
  webUrl ← url_web download;
  downloadErrors_push
    {| de_webUrl := webUrl; de_filePath := filePath;
       de_status := status response; de_statusText := statusText response |};;
  console_log (FailedToDownload webUrl (status response) (statusText response));;
  fs_unlink filePath.

(** The identifier [response] as the [catch] block of [downloadBook] reads
    it (line 453): [const response] is declared inside the [try] block
    (line 444), neither the function nor the module declares another one,
    so the read throws. *)
Definition response_in_catch_block : M Response :=
  throw (ReferenceError "response").

(** The destination path (lines 423-435). *)
Definition destination (bundle name label : string) : string :=
  let downloadPath := path_resolve (downloadFolder options) (sanitizeFilename bundle) in
  let fileName := (trim name ++ getExtension (normalizeFormat label))%string in
  path_resolve downloadPath (sanitizeFilename fileName).

(** Lines 422-456; the result is [true] for [return true] and [false] for
    the plain [return] (the caller only tests it for truth). *)
Definition downloadBook (bundle name : string) (download : DownloadStruct) : M bool :=
  let downloadPath := path_resolve (downloadFolder options) (sanitizeFilename bundle) in
  ensureFolderCreated downloadPath;;
  label ← liftR (deref "download.name.toLowerCase" (ds_name download));
  let filePath := destination bundle name label in
  matches ← checkSignatureMatch filePath download;
  if matches : bool then mret true
  else
    try_catch
      (webUrl ← url_web download;
       response ← fetch webUrl;
       (if negb (ok response)
        then handleFileDownloadError download filePath response
        else mret tt);;
       downloadFile response filePath;;
       mret false)
      (fun error =>
         response ← response_in_catch_block;
         handleFileDownloadError download filePath response;;
         throw error).

(** The loop over [bundles] (lines 466-519), from given [downloads]. *)
Fixpoint forBundles (bundles : list Order) (downloads : list Task) : M (list Task) :=
  match bundles with
  | [] => mret downloads
  | bundle :: rest =>
      '(bundleDownloads, bundleFormats) ←
        liftR (bundleDownloadsOf (format options) bundle);
      match bundleDownloads with
      | [] =>
          console_log (NoDownloadsForBundle (format options) (o_human_name bundle)
                         (join ", " (sort bundleFormats)));;
          forBundles rest downloads
      | _ :: _ => forBundles rest (downloads ++ bundleDownloads)
      end
  end.

(** [limiter.schedule(job)] and [async.each(list, iteratee)] (lines 529-564)
    for the default [downloadLimit] of 1: the limiter runs the jobs one
    after the other in the order of submission, which is the order of the
    list.  When a job rejects, the promise of [async.each] rejects with its
    error, [downloadBundles] rejects and [main] exits the process (lines
    643-647): no later job completes. *)
Definition limiter_schedule {A} (job : M A) : M A := job.

Fixpoint async_each {A} (l : list A) (iteratee : A -> M unit) : M unit :=
  match l with
  | [] => mret tt
  | x :: rest => iteratee x;; async_each rest iteratee
  end.

(** The job of one download (lines 535-563). *)
Definition downloadJob (download : Task) : M unit :=
  limiter_schedule
    (console_log (Downloading download);;
     skipped ← downloadBook (t_bundle download) (t_name download) (t_download download);
     if skipped : bool then console_log (SkippedDownloading download) else mret tt).

(** Lines 458-567. *)
Definition downloadBundles (bundles : list Order) : M unit :=
  match bundles with
  | [] => console_log NoBundlesSelected
  | _ :: _ =>
      downloads ← forBundles bundles [];
      match downloads with
      | [] => console_log (NoDownloadsFound (format options))
      | _ :: _ => async_each downloads downloadJob;; console_log Done
      end
  end.

(** Lines 634-642 of [main]. *)
Definition reportDownloadErrors : M unit := fun w =>
  match downloadErrors w with
  | _ :: _ => console_log (DownloadErrors (downloadErrors w)) w
  | [] => console_log CompletedSuccessfully w
  end.

(** The end of [main] (lines 632-647), from the selected bundles on. *)
Definition main_from_bundles (bundles : list Order) (w : World) : Exit * World :=
  match (downloadBundles bundles;; reportDownloadErrors) w with
  | (Ok _, w') => (ExitNormally, w')
  | (Throw e, w') => (ExitFailure, snd (console_log (ErrorOccurred e) w'))
  end.

End Engine.

(** ** The selection of [displayOrders] (lines 307-325)

    The prompt shows the names of the orders and answers with the names the
    user ticked, [answers.bundle]; the function returns the orders whose
    name is among them. *)
Definition displayOrders_selected (answers_bundle : list string) (orders : list Order)
    : list Order :=
  List.filter (fun item => includes answers_bundle (o_human_name item)) orders.

(** ** The whole of [fetchOrders] (lines 236-300)

    An answer of the service to a request: the request is rejected, or a
    response comes with its status and, from [response.json()], the parsed
    body ([None] when that promise rejects). *)
Inductive Api (A : Type) : Type :=
  | ApiRejects
  | ApiAnswers (st : Z) (json : option A).
Arguments ApiRejects {A}.
Arguments ApiAnswers {A} st json.

(** [response.ok] for a status. *)
Definition status_ok (st : Z) : bool := (200 <=? st)%Z && (st <=? 299)%Z.

Record Stub := { gamekey : string }.

Inductive FetchOrdersFailure :=
  | CouldNotFetchOrders (st : Z)   (* the [Error] of lines 248 and 272 *)
  | RequestRejected.               (* [fetch] or [response.json()] rejects *)

Definition order_url (key : string) : string :=
  ("https://www.humblebundle.com/api/v1/order/" ++ key ++ "?ajax=true")%string.

(** The job of one order (lines 263-284); [service] answers a request for
    a URL made with the headers of the session. *)
Definition fetchOrderDetails (service : string -> Api (option Order)) (item : Stub)
    : FetchOrdersFailure + option Order :=
  match service (order_url (gamekey item)) with
  | ApiRejects => inl RequestRejected
  | ApiAnswers st json =>
      if negb (status_ok st) then inl (CouldNotFetchOrders st)
      else match json with
           | Some orderDetails => inr orderDetails
           | None => inl RequestRejected
           end
  end.

(** [async.concat(list, iteratee)]: the results in the order of the list,
    or the error of a job that rejects (here the first one of the list; with
    several jobs in flight it is the first one in time). *)
Fixpoint async_concat {A B E} (l : list A) (iteratee : A -> E + B) : E + list B :=
  match l with
  | [] => inr []
  | x :: rest =>
      match iteratee x with
      | inl e => inl e
      | inr b =>
          match async_concat rest iteratee with
          | inl e => inl e
          | inr bs => inr (b :: bs)
          end
      end
  end.

Definition fetchOrders (listing : Api (list Stub)) (service : string -> Api (option Order))
    : FetchOrdersFailure + list (option Order) :=
  match listing with
  | ApiRejects => inl RequestRejected
  | ApiAnswers st json =>
      if negb (status_ok st) then inl (CouldNotFetchOrders st)
      else match json with
           | None => inl RequestRejected
           | Some ordersData =>
               match async_concat ordersData (fetchOrderDetails service) with
               | inl e => inl e
               | inr detailedOrders => inr (filterOrders detailedOrders)
               end
           end
  end.

(** ** [validateSession] (lines 103-154) and its use in [main] (622-626) *)

(** The character of code 34, the double quote. *)
Definition quote : ascii := "034"%char.

(** [util.format('"%s"', s)]. *)
Definition quoted (s : string) : string :=
  String quote (s ++ String quote EmptyString)%string.

(** [s.replace(/^"|"$/g, "")]: a quote at the start goes, and so does a
    quote at the end of what remains. *)
Definition strip_leading_quote (s : string) : string :=
  match s with
  | String c rest => if Ascii.eqb c quote then rest else s
  | EmptyString => s
  end.

Fixpoint strip_trailing_quote (s : string) : string :=
  match s with
  | EmptyString => EmptyString
  | String c EmptyString => if Ascii.eqb c quote then EmptyString else s
  | String c rest => String c (strip_trailing_quote rest)
  end.

Definition replace_outer_quotes (s : string) : string :=
  strip_trailing_quote (strip_leading_quote s).

Inductive SessionFailure :=
  | NoSessionInConfig          (* line 110 *)
  | ExpirationDateInThePast    (* line 114 *)
  | AuthTokenTypeError         (* line 117: [commander.authToken] is undefined *)
  | SessionRequestRejected     (* [fetch] or [response.json()] rejects *)
  | NoDataReturned             (* line 132 *)
  | Unauthorized401            (* line 142 *)
  | CouldNotValidate (st : Z). (* line 145 *)

(** What [validateSession] reads: [options.authToken], the property
    [commander.authToken], [config.session], [config.expirationDate], and
    the outcome of the comparison [config.expirationDate < new Date()]. *)
Record SessionInputs := {
  options_authToken : option string;
  commander_authToken : option string;
  config_session : option string;
  config_expirationDate : option string;
  expirationDate_lt_now : bool
}.

(** The session the request is made with (lines 106-118). *)
Definition session_to_validate (i : SessionInputs) : SessionFailure + string :=
  if negb (truthy (options_authToken i)) then
    if negb (truthy (config_session i)) || negb (truthy (config_expirationDate i))
    then inl NoSessionInConfig
    else if expirationDate_lt_now i then inl ExpirationDateInThePast
    else inr (default "" (config_session i))
  else
    match commander_authToken i with
    | Some token => inr (quoted (replace_outer_quotes token))
    | None => inl AuthTokenTypeError
    end.

(** [service] answers the request made with the cookie of a session; the
    parsed body counts by its truthiness only. *)
Definition validateSession (i : SessionInputs) (service : string -> Api bool)
    : SessionFailure + string :=
  match session_to_validate i with
  | inl e => inl e
  | inr session =>
      match service session with
      | ApiRejects => inl SessionRequestRejected
      | ApiAnswers st None => inl SessionRequestRejected
      | ApiAnswers st (Some data) =>
          if negb data then inl NoDataReturned
          else if (st =? 200)%Z then inr session
          else if (st =? 401)%Z && negb (truthy (options_authToken i))
          then inl Unauthorized401
          else inl (CouldNotValidate st)
      end
  end.

(** Lines 622-626 of [main]. *)
Inductive Login :=
  | LoginFails (e : SessionFailure)
  | LoggedIn (session : string)
  | Authenticates.   (* [authenticate(saveConfig)] is called *)

Definition main_session (i : SessionInputs) (service : string -> Api bool) : Login :=
  match validateSession i service with
  | inl e => LoginFails e
  | inr session =>
      if negb (truthy (Some session)) then Authenticates else LoggedIn session
  end.

(** ** The configuration file (lines 55-91)

    [getConfigPath] runs once when the module is loaded, [loadConfig] at the
    start of [main]; [parse] is [JSON.parse], [None] for a text that is not
    JSON. *)

Definition config_file_name : string := ".humblebundle_ebook_downloader.json".

Definition getConfigPath (path_resolve : string -> string -> string)
    (homedir cwd : string) (fs : gmap string string) : option string :=
  let configPath := path_resolve homedir config_file_name in
  match fs !! configPath with
  | Some _ => Some configPath
  | None =>
      let configPath := path_resolve cwd config_file_name in
      match fs !! configPath with
      | Some _ => Some configPath
      | None => None
      end
  end.

Inductive Loaded (Config : Type) : Type :=
  | LoadedConfig (config : Config)   (* line 84 *)
  | EmptyConfig                      (* line 87: [{}] *)
  | LoadFailsOnPath                  (* line 89, [fs.access(null)] having thrown *)
  | LoadFailsOnText.                 (* line 89, [JSON.parse] having thrown *)
Arguments LoadedConfig {Config} config.
Arguments EmptyConfig {Config}.
Arguments LoadFailsOnPath {Config}.
Arguments LoadFailsOnText {Config}.

(** [fs.access] of a path that is [null] rejects with a [TypeError] whose
    code is not [ENOENT]; of a path without a file, with [ENOENT]. *)
Definition loadConfig {Config} (parse : string -> option Config)
    (configPath : option string) (fs : gmap string string) : Loaded Config :=
  match configPath with
  | None => LoadFailsOnPath
  | Some path =>
      match fs !! path with
      | None => EmptyConfig
      | Some data =>
          match parse data with
          | Some config => LoadedConfig config
          | None => LoadFailsOnText
          end
      end
  end.

(** ** Predicates of the specification *)

(** A format value of the enumerated set [SUPPORTED_FORMATS ∪ {"all"}]. *)
Definition allowed_format (v : option string) : Prop :=
  exists s, v = Some s /\ In s (SUPPORTED_FORMATS ++ ["all"]).

(** The order has a subproduct with a download whose platform is the ebook
    tag. *)
Definition has_ebook_platform (order : option Order) : Prop :=
  exists o subproducts sp downloads d,
    order = Some o /\ o_subproducts o = Some subproducts /\ In (Some sp) subproducts
    /\ sp_downloads sp = Some downloads /\ In (Some d) downloads
    /\ d_platform d = Some "ebook".

(** A format variant with both its label and its URL. *)
Definition eligible (v : DownloadStruct) : bool :=
  truthy (ds_name v) && present (ds_url v).

(** The variant [v] is met by the loops of [downloadBundles] under the
    subproduct [sp] of [bundle]: it is an entry of the [download_struct] of
    a download of [sp] whose platform is the ebook tag. *)
Definition encountered (bundle : Order) (sp : Subproduct) (v : DownloadStruct) : Prop :=
  exists subproducts downloads d structs,
    o_subproducts bundle = Some subproducts /\ In (Some sp) subproducts
    /\ sp_downloads sp = Some downloads /\ In (Some d) downloads
    /\ d_platform d = Some "ebook"
    /\ d_download_struct d = Some structs /\ In (Some v) structs.

(** Orders on which the loops of [downloadBundles] read no property of a
    missing value: [subproducts] and every [downloads] are arrays without
    [null] entries. *)
Definition well_shaped_subproduct (subproduct : option Subproduct) : bool :=
  match subproduct ≫= sp_downloads with
  | Some downloads => forallb present downloads
  | None => false
  end.

Definition well_shaped (bundle : Order) : bool :=
  match o_subproducts bundle with
  | Some subproducts => forallb well_shaped_subproduct subproducts
  | None => false
  end.

(** The resolution as the specification words it: for each subproduct, for
    each download whose platform is the ebook tag, for each format variant,
    skip the entries without label or URL and keep the variant if and only
    if the selector is ["all"] or the normalised format. *)
Definition spec_selected (format : string) (v : DownloadStruct) : bool :=
  eligible v
  && (str_eq format "all"
      || str_eq (normalizeFormat (default "" (ds_name v))) format).

Definition spec_variants (format : string) (structs : list (option DownloadStruct))
    : list DownloadStruct :=
  flat_map (fun v => match v with
                     | Some d => if spec_selected format d then [d] else []
                     | None => []
                     end) structs.

Definition spec_ebook_downloads (downloads : list (option Download)) : list Download :=
  flat_map (fun download => match download with
                            | Some d => if is_ebook d then [d] else []
                            | None => []
                            end) downloads.

Definition spec_subproduct_tasks (format bundleName : string)
    (subproduct : option Subproduct) : list Task :=
  match subproduct with
  | Some sp =>
      map (fun v => {| t_bundle := bundleName; t_download := v;
                       t_name := sp_human_name sp |})
        (spec_variants format
           (flat_map (fun d => default [] (d_download_struct d))
              (spec_ebook_downloads (default [] (sp_downloads sp)))))
  | None => []
  end.

Definition spec_bundle_tasks (format : string) (bundle : Order) : list Task :=
  flat_map (spec_subproduct_tasks format (o_human_name bundle))
    (default [] (o_subproducts bundle)).

(** The worlds [w] and [w'] differ by what was printed at most. *)
Definition same_but_console (w w' : World) : Prop :=
  files w' = files w /\ downloadErrors w' = downloadErrors w /\ requests w' = requests w.

(** The stronger of the hash kinds the variant advertises: SHA-1 when it
    advertises one, MD5 otherwise. *)
Definition stronger_hash (download : DownloadStruct) : HashType :=
  if truthy (ds_sha1 download) then Sha1 else Md5.

(** The digest of [content], of the stronger advertised kind, is the
    advertised checksum. *)
Definition verified (sha1_hex md5_hex : string -> string)
    (download : DownloadStruct) (content : string) : bool :=
  digest_eq (createHash sha1_hex md5_hex (stronger_hash download) content)
    (advertised download (stronger_hash download)).

(** The leaves of a nested array, from left to right. *)
Fixpoint leaves {A} (b : Nested A) : list A :=
  match b with
  | Leaf a => [a]
  | Arr l => flat_map leaves l
  end.

(** The format that the callback of lines 480-495 records in
    [bundleFormats] for a variant, if any: the normalised format of a
    variant with label and URL, when it is a supported format. *)
Definition recorded_format (v : DownloadStruct) : option string :=
  if eligible v
     && includes SUPPORTED_FORMATS (normalizeFormat (default "" (ds_name v)))
  then Some (normalizeFormat (default "" (ds_name v)))
  else None.


(** The file at the destination of the download [t] is the asset the
    variant advertises: its digest of the stronger advertised kind is the
    advertised checksum. *)
Definition in_place (sha1_hex md5_hex sanitizeFilename : string -> string)
    (path_resolve : string -> string -> string) (trim : string -> string)
    (options : Options) (fs : gmap string string) (t : Task) : Prop :=
  exists label content,
    ds_name (t_download t) = Some label
    /\ fs !! destination sanitizeFilename path_resolve trim options
                (t_bundle t) (t_name t) label = Some content
    /\ verified sha1_hex md5_hex (t_download t) content = true.

(** ** A concrete environment

    Toy digests (the content behind a tag), file names kept as they are,
    paths joined with a slash, and a remote service with one asset that is
    served, one that is missing and one whose transfer breaks off. *)

Module Demo.

Definition sha1_hex (content : string) : string := ("sha1:" ++ content)%string.
Definition md5_hex (content : string) : string := ("md5:" ++ content)%string.
Definition sanitizeFilename (s : string) : string := s.
Definition path_resolve (a b : string) : string := (a ++ "/" ++ b)%string.
Definition trim (s : string) : string := s.

Definition options : Options :=
  {| downloadFolder := "download"; downloadLimit := 1; format := "epub" |}.

Definition remote (u : string) : FetchOutcome :=
  if str_eq u "https://dl/ok.epub" then
    Responds {| status := 200; statusText := "OK";
                body := {| delivered := "EPUB-BYTES"; ends := true |} |}
  else if str_eq u "https://dl/missing.epub" then
    Responds {| status := 404; statusText := "Not Found";
                body := {| delivered := "<html>404</html>"; ends := true |} |}
  else if str_eq u "https://dl/broken.epub" then
    Responds {| status := 200; statusText := "OK";
                body := {| delivered := "EPUB-"; ends := false |} |}
  else Rejects.

Definition variant (label url : string) (sha1 md5 : option string) : DownloadStruct :=
  {| ds_name := Some label; ds_url := Some {| web := url |};
     ds_sha1 := sha1; ds_md5 := md5; ds_human_size := Some "1 MB" |}.

Definition ok_variant : DownloadStruct :=
  variant "EPUB" "https://dl/ok.epub" (Some "sha1:EPUB-BYTES") (Some "md5:EPUB-BYTES").
Definition missing_variant : DownloadStruct :=
  variant "EPUB" "https://dl/missing.epub" (Some "sha1:GONE") None.
Definition broken_variant : DownloadStruct :=
  variant "EPUB" "https://dl/broken.epub" (Some "sha1:EPUB-BYTES") None.
Definition unsigned_variant : DownloadStruct :=
  variant "EPUB" "https://dl/ok.epub" None None.
Definition pdf_variant : DownloadStruct :=
  variant "PDF" "https://dl/ok.pdf" None (Some "md5:PDF").

Definition ebook (structs : list DownloadStruct) : Download :=
  {| d_platform := Some "ebook"; d_download_struct := Some (map Some structs) |}.

Definition audio : Download :=
  {| d_platform := Some "audio"; d_download_struct := Some [Some ok_variant] |}.

Definition book (name : string) (ds : list Download) : Subproduct :=
  {| sp_human_name := name; sp_downloads := Some (map Some ds) |}.

Definition order (name : string) (sps : list Subproduct) : Order :=
  {| o_human_name := name; o_subproducts := Some (map Some sps) |}.

Definition empty_world : World :=
  {| files := ∅; downloadErrors := []; requests := []; console := [] |}.

Definition world_with (path content : string) : World :=
  {| files := {[ path := content ]}; downloadErrors := []; requests := []; console := [] |}.

Definition downloadBook := downloadBook sha1_hex md5_hex sanitizeFilename path_resolve trim remote options.
Definition downloadBundles := downloadBundles sha1_hex md5_hex sanitizeFilename path_resolve trim remote options.
Definition main_from_bundles := main_from_bundles sha1_hex md5_hex sanitizeFilename path_resolve trim remote options.

(** A batch of two downloads: the first asset is missing on the remote
    service, the second is served. *)
Definition failing_batch : list Order :=
  [order "Bundle" [book "A" [ebook [missing_variant]]; book "B" [ebook [ok_variant]]]].

(** Two orders, one with a book in EPUB and PDF, one without any ebook. *)
Definition catalog : list Order :=
  [order "Books" [book "Book" [ebook [ok_variant; pdf_variant]]];
   order "Music" [book "Album" [audio]]].

Definition destination := destination sanitizeFilename path_resolve trim options.
Definition checkSignatureMatch := checkSignatureMatch sha1_hex md5_hex.

(** A variant whose advertised SHA-1 is not the one of the served asset,
    while its advertised MD5 is. *)
Definition resigned_variant : DownloadStruct :=
  variant "EPUB" "https://dl/ok.epub" (Some "sha1:OTHER") (Some "md5:EPUB-BYTES").

Definition in_place := in_place sha1_hex md5_hex sanitizeFilename path_resolve trim options.
Definition downloadJob := downloadJob sha1_hex md5_hex sanitizeFilename path_resolve trim remote options.

(** The downloads that [failing_batch] resolves to. *)
Definition failing_tasks : list Task :=
  [ {| t_bundle := "Bundle"; t_download := missing_variant; t_name := "A" |};
    {| t_bundle := "Bundle"; t_download := ok_variant; t_name := "B" |} ].

End Demo.

(** * Properties *)

(** ** Formats *)

Example ALLOWED_FORMATS_value :
  ALLOWED_FORMATS =
  ["all"; "cbz"; "csv"; "epub"; "iso"; "mobi"; "pdf"; "pdf_hd"; "prc"; "txt"; "zip"].
Proof. reflexivity. Qed.

Example normalize_PDF_HD : normalizeFormat "PDF (HD)" = "pdf_hd".
Proof. reflexivity. Qed.
Example normalize_Download : normalizeFormat "Download" = "pdf".
Proof. reflexivity. Qed.
Example normalize_CBZ : normalizeFormat ".CBZ" = "cbz".
Proof. reflexivity. Qed.
Example normalize_EPUB : normalizeFormat "EPUB" = "epub".
Proof. reflexivity. Qed.
Example extension_pdf_hd : getExtension "pdf_hd" = " (hd).pdf".
Proof. reflexivity. Qed.
Example extension_epub : getExtension "epub" = ".epub".
Proof. reflexivity. Qed.

Lemma str_eq_true (a b : string) : str_eq a b = true <-> a = b.
Proof. apply String.eqb_eq. Qed.

Lemma str_eq_false (a b : string) : str_eq a b = false <-> a <> b.
Proof. apply String.eqb_neq. Qed.

Lemma str_eq_refl (a : string) : str_eq a a = true.
Proof. apply String.eqb_refl. Qed.

Lemma lower_ascii_idempotent (c : ascii) : lower_ascii (lower_ascii c) = lower_ascii c.
Proof. destruct c as [[] [] [] [] [] [] [] []]; reflexivity. Qed.

Lemma toLowerCase_idempotent (s : string) : toLowerCase (toLowerCase s) = toLowerCase s.
Proof.
  induction s as [|c rest IH]; simpl; [reflexivity|].
  now rewrite lower_ascii_idempotent, IH.
Qed.

(** The four keys of the table are the four [case] labels; every other
    label takes the [default] branch. *)
Lemma normalizeFormat_cases (label : string) :
  (toLowerCase label = ".cbz" /\ normalizeFormat label = "cbz")
  \/ (toLowerCase label = "pdf (hq)" /\ normalizeFormat label = "pdf_hd")
  \/ (toLowerCase label = "pdf (hd)" /\ normalizeFormat label = "pdf_hd")
  \/ (toLowerCase label = "download" /\ normalizeFormat label = "pdf")
  \/ (toLowerCase label <> ".cbz" /\ toLowerCase label <> "pdf (hq)"
      /\ toLowerCase label <> "pdf (hd)" /\ toLowerCase label <> "download"
      /\ normalizeFormat label = toLowerCase label).
Proof.
  unfold normalizeFormat; cbv zeta.
  destruct (str_eq (toLowerCase label) ".cbz") eqn:E1;
    [apply str_eq_true in E1; tauto | apply str_eq_false in E1].
  destruct (str_eq (toLowerCase label) "pdf (hq)") eqn:E2;
    [apply str_eq_true in E2; tauto | apply str_eq_false in E2].
  destruct (str_eq (toLowerCase label) "pdf (hd)") eqn:E3;
    [apply str_eq_true in E3; tauto | apply str_eq_false in E3].
  destruct (str_eq (toLowerCase label) "download") eqn:E4;
    [apply str_eq_true in E4; tauto | apply str_eq_false in E4].
  do 4 right; tauto.
Qed.

Lemma normalizeFormat_lowercase (label : string) :
  toLowerCase (normalizeFormat label) = normalizeFormat label.
Proof.
  destruct (normalizeFormat_cases label)
    as [[_ ->]|[[_ ->]|[[_ ->]|[[_ ->]|(_ & _ & _ & _ & ->)]]]];
    try reflexivity.
  apply toLowerCase_idempotent.
Qed.

(** C4: [normalizeFormat] follows the normalisation table whatever the case
    of the letters of the label: every casing of [.cbz] gives [cbz], every
    casing of [pdf (hq)] or [pdf (hd)] gives [pdf_hd], every casing of
    [download] gives [pdf], every other label gives its lower-cased form,
    and two labels that differ by case only have the same normal form. *)
Theorem normalizeFormat_table (label : string) :
  (same_ignoring_case label ".cbz" -> normalizeFormat label = "cbz")
  /\ (same_ignoring_case label "pdf (hq)" \/ same_ignoring_case label "pdf (hd)" ->
      normalizeFormat label = "pdf_hd")
  /\ (same_ignoring_case label "download" -> normalizeFormat label = "pdf")
  /\ (~ same_ignoring_case label ".cbz" -> ~ same_ignoring_case label "pdf (hq)" ->
      ~ same_ignoring_case label "pdf (hd)" -> ~ same_ignoring_case label "download" ->
      normalizeFormat label = toLowerCase label)
  /\ (forall label', same_ignoring_case label label' ->
      normalizeFormat label = normalizeFormat label').
Proof.
  unfold same_ignoring_case; simpl toLowerCase at 2 4 6 8 10 12 14.
  repeat split.
  - intros H. unfold normalizeFormat; cbv zeta. now rewrite H.
  - intros [H|H]; unfold normalizeFormat; cbv zeta; now rewrite H.
  - intros H. unfold normalizeFormat; cbv zeta. now rewrite H.
  - intros H1 H2 H3 H4.
    destruct (normalizeFormat_cases label)
      as [[E _]|[[E _]|[[E _]|[[E _]|(_ & _ & _ & _ & E)]]]];
      solve [contradiction | exact E].
  - intros label' H. unfold normalizeFormat; cbv zeta. now rewrite H.
Qed.

Lemma normalizeFormat_table_witness :
  normalizeFormat ".CbZ" = "cbz" /\ normalizeFormat "Pdf (HQ)" = "pdf_hd"
  /\ normalizeFormat "DOWNLOAD" = "pdf" /\ normalizeFormat "ePub" = "epub"
  /\ normalizeFormat "MOBI" = normalizeFormat "mobi".
Proof.
  split; [apply (normalizeFormat_table ".CbZ"); reflexivity|].
  split; [apply (normalizeFormat_table "Pdf (HQ)"); left; reflexivity|].
  split; [apply (normalizeFormat_table "DOWNLOAD"); reflexivity|].
  split; [apply (normalizeFormat_table "ePub"); intros H; vm_compute in H; discriminate H|].
  apply (normalizeFormat_table "MOBI"); reflexivity.
Defined.

(** C9: on a normalised format the extension of the file name is
    [" (hd).pdf"] for [pdf_hd] and a dot followed by the format otherwise. *)
Theorem getExtension_normalized (label : string) :
  (normalizeFormat label = "pdf_hd" ->
   getExtension (normalizeFormat label) = " (hd).pdf")
  /\ (normalizeFormat label <> "pdf_hd" ->
      getExtension (normalizeFormat label) = ("." ++ normalizeFormat label)%string).
Proof.
  unfold getExtension. rewrite normalizeFormat_lowercase. split; intros H.
  - now rewrite H.
  - apply str_eq_false in H. now rewrite H.
Qed.

Lemma getExtension_normalized_witness :
  getExtension (normalizeFormat "PDF (HD)") = " (hd).pdf"
  /\ getExtension (normalizeFormat "EPUB") = ".epub".
Proof.
  split.
  - apply (getExtension_normalized "PDF (HD)"). reflexivity.
  - apply (getExtension_normalized "EPUB"). intros H; vm_compute in H; discriminate H.
Defined.

(** ** Configuration validation *)

Lemma sort_insert_In (x y : string) (l : list string) :
  In y (sort_insert x l) <-> y = x \/ In y l.
Proof.
  induction l as [|z rest IH]; simpl.
  - intuition.
  - destruct (String.leb x z); simpl; [intuition|]. rewrite IH. intuition.
Qed.

Lemma sort_In (y : string) (l : list string) : In y (sort l) <-> In y l.
Proof.
  induction l as [|x rest IH]; simpl; [tauto|].
  rewrite sort_insert_In, IH. intuition.
Qed.

Lemma indexOf_from_absent (l : list string) (x : string) (i : Z) :
  (0 <= i)%Z -> (indexOf_from l x i = -1)%Z <-> ~ In x l.
Proof.
  revert i. induction l as [|y rest IH]; intros i Hi; simpl.
  - tauto.
  - destruct (str_eq y x) eqn:E.
    + apply str_eq_true in E. split; [lia | intros H; exfalso; apply H; now left].
    + apply str_eq_false in E. rewrite IH by lia. intuition.
Qed.

(** [ALLOWED_FORMATS.indexOf(v) === -1] holds exactly of the values outside
    the enumerated set. *)
Lemma indexOf_ALLOWED_FORMATS (v : option string) :
  (indexOf ALLOWED_FORMATS v =? -1)%Z = false <-> allowed_format v.
Proof.
  unfold allowed_format. rewrite Z.eqb_neq. destruct v as [s|]; unfold indexOf.
  - rewrite indexOf_from_absent by lia. unfold ALLOWED_FORMATS. rewrite sort_In.
    split.
    + intros H. exists s. split; [reflexivity|].
      destruct (in_dec string_dec s (SUPPORTED_FORMATS ++ ["all"])); tauto.
    + intros (s' & [= <-] & H). tauto.
  - split; [intros H; now contradiction H | intros (s & [=] & _)].
Qed.

(** The run goes past the validation exactly when both the value read
    before the command line is parsed and the resolved value are in the
    set. *)
Lemma main_validation_Proceeds (i : FormatInputs) :
  main_validation i = Proceeds <->
  allowed_format (nullish (commander_format_before_parse i) (config_format i))
  /\ allowed_format (resolved_format i).
Proof.
  rewrite <- !indexOf_ALLOWED_FORMATS. unfold main_validation.
  destruct (indexOf ALLOWED_FORMATS (nullish _ _) =? -1)%Z;
    destruct (indexOf ALLOWED_FORMATS (resolved_format i) =? -1)%Z;
    intuition congruence.
Qed.

(** A resolved format outside the set never goes past the validation. *)
Lemma main_validation_rejects (i : FormatInputs) :
  ~ allowed_format (resolved_format i) -> main_validation i <> Proceeds.
Proof. rewrite main_validation_Proceeds. tauto. Qed.

(** C7, at the failing input: the configuration file has no [format] key
    and the command line asks for [epub].  The resolved format is [epub],
    which is in the enumerated set, and still the run is reported as having
    an invalid format by the check made before the command line is parsed. *)
Theorem main_validation_rejects_valid_format :
  let i := {| config_format := None;
              commander_format_before_parse := None;
              cli_format := Some "epub" |} in
  resolved_format i = Some "epub"
  /\ In "epub" (SUPPORTED_FORMATS ++ ["all"])
  /\ main_validation i = InvalidFormatProvided.
Proof. cbv zeta. split; [reflexivity|]. split; [simpl; tauto | reflexivity]. Qed.

(** ** The filter of [fetchOrders] *)

Lemma flatten_leaves_from {A} (l acc : list A) :
  fold_left (fun a b => a ++ flatten_item b) (map Leaf l) acc = acc ++ l.
Proof.
  revert acc. induction l as [|x rest IH]; intros acc; simpl.
  - now rewrite app_nil_r.
  - rewrite IH, <- app_assoc. reflexivity.
Qed.

(** On an array without nested arrays [flatten] changes nothing. *)
Lemma flatten_leaves {A} (l : list A) : flatten (map Leaf l) = l.
Proof. unfold flatten. now rewrite flatten_leaves_from. Qed.

Lemma includes_ebook_In (l : list (option string)) :
  includes_ebook l = true <-> In (Some "ebook") l.
Proof.
  unfold includes_ebook. rewrite existsb_exists. split.
  - intros ([s|] & Hin & E); [|discriminate].
    apply str_eq_true in E. now subst.
  - intros H. exists (Some "ebook"). split; [exact H | reflexivity].
Qed.

Lemma order_platforms_In (order : option Order) (p : option string) :
  In p (order_platforms order) <->
  exists o subproducts sp downloads download,
    order = Some o /\ o_subproducts o = Some subproducts /\ In (Some sp) subproducts
    /\ sp_downloads sp = Some downloads /\ In download downloads
    /\ p = download ≫= d_platform.
Proof.
  unfold order_platforms. split.
  - destruct order as [o|]; simpl; [|tauto].
    destruct (o_subproducts o) as [subproducts|] eqn:Es; simpl; [|tauto].
    rewrite in_flat_map. intros ([sp|] & Hsp & Hp); simpl in Hp; [|tauto].
    destruct (sp_downloads sp) as [downloads|] eqn:Ed; simpl in Hp; [|tauto].
    apply in_map_iff in Hp as (download & <- & Hd).
    exists o, subproducts, sp, downloads, download. tauto.
  - intros (o & subproducts & sp & downloads & download & -> & Es & Hsp & Ed & Hd & ->).
    simpl. rewrite Es. simpl. rewrite in_flat_map.
    exists (Some sp). split; [exact Hsp|]. simpl. rewrite Ed. simpl.
    apply in_map_iff. exists download. tauto.
Qed.

Lemma retained_has_ebook_platform (order : option Order) :
  retained order = true <-> has_ebook_platform order.
Proof.
  unfold retained, has_ebook_platform.
  rewrite flatten_leaves, includes_ebook_In, order_platforms_In. split.
  - intros (o & subproducts & sp & downloads & [d|] & Ho & Es & Hsp & Ed & Hd & Hp);
      [|discriminate].
    exists o, subproducts, sp, downloads, d. simpl in Hp. intuition congruence.
  - intros (o & subproducts & sp & downloads & d & Ho & Es & Hsp & Ed & Hd & Hp).
    exists o, subproducts, sp, downloads, (Some d). simpl. intuition congruence.
Qed.

Lemma replace_structs_platforms f (o : Order) :
  order_platforms (Some (replace_structs f o)) = order_platforms (Some o).
Proof.
  unfold order_platforms; simpl.
  destruct (o_subproducts o) as [subproducts|]; simpl; [|reflexivity].
  induction subproducts as [|[sp|] rest IH]; simpl; [reflexivity| |exact IH].
  rewrite IH. f_equal.
  destruct (sp_downloads sp) as [downloads|]; simpl; [|reflexivity].
  rewrite map_map. apply map_ext. now intros [d|].
Qed.

(** C5: an order is retained by the filter of [fetchOrders] exactly when
    one of its subproducts has a download whose platform is the ebook tag;
    the verdict does not change when the format variants of the order are
    replaced by any others; and the filtered list holds exactly the given
    orders that have such a download, the others being dropped without any
    other effect. *)
Theorem fetchOrders_retains_ebook_orders (order : option Order) :
  (retained order = true <-> has_ebook_platform order)
  /\ (forall o f, order = Some o ->
      retained (Some (replace_structs f o)) = retained order)
  /\ (forall detailedOrders,
      In order (filterOrders detailedOrders) <->
      In order detailedOrders /\ has_ebook_platform order).
Proof.
  split; [apply retained_has_ebook_platform|]. split.
  - intros o f ->. unfold retained. now rewrite replace_structs_platforms.
  - intros detailedOrders. unfold filterOrders.
    rewrite filter_In, retained_has_ebook_platform. reflexivity.
Qed.

(** ** Resolution of the downloads *)

Lemma filterCallback_verdict format (d : DownloadStruct) bundleFormats :
  fst (filterCallback format (Some d) bundleFormats) = spec_selected format d.
Proof.
  unfold filterCallback, spec_selected, eligible; simpl.
  destruct (truthy (ds_name d)); simpl; [|reflexivity].
  destruct (present (ds_url d)); reflexivity.
Qed.

Lemma filterCallback_null format bundleFormats :
  fst (filterCallback format None bundleFormats) = false.
Proof. reflexivity. Qed.

Lemma filterDownloadStructs_fst format downloadStructs bundleFormats :
  fst (filterDownloadStructs format downloadStructs bundleFormats)
  = spec_variants format downloadStructs.
Proof.
  revert bundleFormats.
  induction downloadStructs as [|download rest IH]; intros bundleFormats; simpl;
    [reflexivity|].
  destruct (filterCallback format download bundleFormats) as [keep bundleFormats1] eqn:Ec.
  specialize (IH bundleFormats1).
  destruct (filterDownloadStructs format rest bundleFormats1) as [kept bundleFormats2].
  simpl in *. rewrite <- IH.
  destruct download as [d|].
  - pose proof (filterCallback_verdict format d bundleFormats) as Hv.
    rewrite Ec in Hv; simpl in Hv. rewrite <- Hv. now destruct keep.
  - reflexivity.
Qed.

Lemma filterEbook_ok downloads :
  forallb present downloads = true ->
  filterEbook downloads = Ok (spec_ebook_downloads downloads).
Proof.
  induction downloads as [|[d|] rest IH]; simpl; intros H; try discriminate;
    [reflexivity|].
  rewrite (IH H); simpl. now destruct (is_ebook d).
Qed.

Lemma subproductDownloads_ok format bundleName subproduct bundleFormats :
  well_shaped_subproduct subproduct = true ->
  exists bundleFormats',
    subproductDownloads format bundleName subproduct bundleFormats
    = Ok (spec_subproduct_tasks format bundleName subproduct, bundleFormats').
Proof.
  unfold well_shaped_subproduct, subproductDownloads, spec_subproduct_tasks.
  destruct subproduct as [sp|]; simpl; [|discriminate].
  destruct (sp_downloads sp) as [downloads|]; simpl; [|discriminate].
  intros H. rewrite (filterEbook_ok _ H); simpl.
  pose proof (filterDownloadStructs_fst format
                (flat_map (fun d => default [] (d_download_struct d))
                   (spec_ebook_downloads downloads)) bundleFormats) as Hf.
  destruct (filterDownloadStructs _ _ _) as [kept bundleFormats']. simpl in Hf.
  exists bundleFormats'. now rewrite Hf.
Qed.

Lemma forSubproducts_ok format bundleName subproducts bundleDownloads bundleFormats :
  forallb well_shaped_subproduct subproducts = true ->
  exists bundleFormats',
    forSubproducts format bundleName subproducts bundleDownloads bundleFormats
    = Ok (bundleDownloads ++ flat_map (spec_subproduct_tasks format bundleName) subproducts,
          bundleFormats').
Proof.
  revert bundleDownloads bundleFormats.
  induction subproducts as [|subproduct rest IH]; intros bundleDownloads bundleFormats H;
    simpl in *.
  - exists bundleFormats. now rewrite app_nil_r.
  - apply andb_prop in H as [H1 H2].
    destruct (subproductDownloads_ok format bundleName subproduct bundleFormats H1)
      as [bundleFormats1 ->]. simpl.
    destruct (IH (bundleDownloads ++ spec_subproduct_tasks format bundleName subproduct)
                bundleFormats1 H2) as [bundleFormats2 ->].
    exists bundleFormats2. now rewrite <- app_assoc.
Qed.

(** On a well-shaped order the loops of lines 467-504 collect the tasks the
    specification describes. *)
Lemma bundleDownloadsOf_ok format bundle :
  well_shaped bundle = true ->
  exists bundleFormats,
    bundleDownloadsOf format bundle = Ok (spec_bundle_tasks format bundle, bundleFormats).
Proof.
  unfold well_shaped, bundleDownloadsOf, spec_bundle_tasks.
  destruct (o_subproducts bundle) as [subproducts|]; simpl; [|discriminate].
  intros H.
  destruct (forSubproducts_ok format (o_human_name bundle) subproducts [] [] H)
    as [bundleFormats ->].
  now exists bundleFormats.
Qed.

Lemma forBundles_ok options bundles downloads w :
  forallb well_shaped bundles = true ->
  exists w',
    forBundles options bundles downloads w
    = (Ok (downloads ++ flat_map (spec_bundle_tasks (format options)) bundles), w')
    /\ same_but_console w w'.
Proof.
  revert downloads w.
  induction bundles as [|bundle rest IH]; intros downloads w H; simpl in *.
  - exists w. rewrite app_nil_r. now split.
  - apply andb_prop in H as [H1 H2].
    destruct (bundleDownloadsOf_ok (format options) bundle H1) as [bundleFormats Hb].
    unfold mbind, M_bind, liftR. rewrite Hb.
    destruct (spec_bundle_tasks (format options) bundle) as [|t ts] eqn:Et.
    + simpl.
      destruct (IH downloads
                  {| files := files w; downloadErrors := downloadErrors w;
                     requests := requests w;
                     console := NoDownloadsForBundle (format options) (o_human_name bundle)
                                  (join ", " (sort bundleFormats)) :: console w |} H2)
        as (w' & -> & Hw).
      exists w'. split; [reflexivity | exact Hw].
    + destruct (IH (downloads ++ t :: ts) w H2) as (w' & -> & Hw).
      exists w'. rewrite <- app_assoc. now split.
Qed.

Lemma spec_variants_In format structs (v : DownloadStruct) :
  In v (spec_variants format structs) <->
  In (Some v) structs /\ spec_selected format v = true.
Proof.
  unfold spec_variants. rewrite in_flat_map. split.
  - intros ([d|] & Hin & Hv); [|contradiction].
    destruct (spec_selected format d) eqn:E; [|contradiction].
    destruct Hv as [<-|[]]. tauto.
  - intros [Hin Hs]. exists (Some v). rewrite Hs. split; [exact Hin | now left].
Qed.

Lemma spec_ebook_downloads_In downloads (d : Download) :
  In d (spec_ebook_downloads downloads) <->
  In (Some d) downloads /\ d_platform d = Some "ebook".
Proof.
  assert (Hp : forall d', is_ebook d' = true <-> d_platform d' = Some "ebook").
  { intros d'. unfold is_ebook. destruct (d_platform d') as [p|].
    - rewrite str_eq_true. split; congruence.
    - split; discriminate. }
  unfold spec_ebook_downloads. rewrite in_flat_map. split.
  - intros ([d'|] & Hin & Hd); [|contradiction].
    destruct (is_ebook d') eqn:E; [|contradiction].
    destruct Hd as [<-|[]]. apply Hp in E. tauto.
  - intros [Hin Hd]. exists (Some d). apply Hp in Hd. rewrite Hd.
    split; [exact Hin | now left].
Qed.

Lemma spec_bundle_tasks_In format bundle (t : Task) :
  In t (spec_bundle_tasks format bundle) <->
  exists sp v,
    encountered bundle sp v /\ spec_selected format v = true
    /\ t = {| t_bundle := o_human_name bundle; t_download := v;
              t_name := sp_human_name sp |}.
Proof.
  unfold spec_bundle_tasks, encountered. rewrite in_flat_map. split.
  - intros ([sp|] & Hsp & Ht); [|contradiction].
    unfold spec_subproduct_tasks in Ht.
    apply in_map_iff in Ht as (v & <- & Hv).
    apply spec_variants_In in Hv as [Hv Hsel].
    apply in_flat_map in Hv as (d & Hd & Hv).
    apply spec_ebook_downloads_In in Hd as [Hd Hp].
    destruct (o_subproducts bundle) as [subproducts|]; [|contradiction].
    destruct (sp_downloads sp) as [downloads|] eqn:Ed; [|contradiction].
    destruct (d_download_struct d) as [structs|] eqn:Estr; [|contradiction].
    exists sp, v. split; [|tauto].
    exists subproducts, downloads, d, structs. tauto.
  - intros (sp & v & (subproducts & downloads & d & structs & Es & Hsp & Ed & Hd & Hp
                      & Estr & Hv) & Hsel & ->).
    rewrite Es. exists (Some sp). split; [exact Hsp|].
    unfold spec_subproduct_tasks. apply in_map_iff. exists v. split; [reflexivity|].
    apply spec_variants_In. split; [|exact Hsel].
    apply in_flat_map. exists d. split.
    + apply spec_ebook_downloads_In. rewrite Ed. tauto.
    + rewrite Estr. exact Hv.
Qed.

Lemma spec_selected_eligible format (v : DownloadStruct) (label : string) :
  eligible v = true -> ds_name v = Some label ->
  (spec_selected format v = true <-> format = "all" \/ normalizeFormat label = format).
Proof.
  intros He Hn. unfold spec_selected. rewrite He, Hn; simpl.
  rewrite orb_true_iff, !str_eq_true. reflexivity.
Qed.

Lemma filterEbook_Ok_inv downloads filtered :
  filterEbook downloads = Ok filtered -> forallb present downloads = true.
Proof.
  revert filtered. induction downloads as [|[d|] rest IH]; intros filtered; simpl;
    try discriminate; [reflexivity|].
  destruct (filterEbook rest) as [l|e]; simpl; [|discriminate].
  intros _. now apply (IH l).
Qed.

Lemma subproductDownloads_Ok_inv format bundleName subproduct bundleFormats r :
  subproductDownloads format bundleName subproduct bundleFormats = Ok r ->
  well_shaped_subproduct subproduct = true.
Proof.
  unfold subproductDownloads, well_shaped_subproduct.
  destruct subproduct as [sp|]; simpl; [|discriminate].
  destruct (sp_downloads sp) as [downloads|]; simpl; [|discriminate].
  destruct (filterEbook downloads) as [l|e] eqn:E; simpl; [|discriminate].
  intros _. now apply (filterEbook_Ok_inv _ l).
Qed.

Lemma forSubproducts_Ok_inv format bundleName subproducts bundleDownloads bundleFormats r :
  forSubproducts format bundleName subproducts bundleDownloads bundleFormats = Ok r ->
  forallb well_shaped_subproduct subproducts = true.
Proof.
  revert bundleDownloads bundleFormats.
  induction subproducts as [|subproduct rest IH]; intros bundleDownloads bundleFormats;
    simpl; [reflexivity|].
  destruct (subproductDownloads format bundleName subproduct bundleFormats)
    as [[pushed bundleFormats']|e] eqn:E; simpl; [|discriminate].
  intros H. apply subproductDownloads_Ok_inv in E. apply IH in H.
  now rewrite E, H.
Qed.

Lemma bundleDownloadsOf_Ok_inv format bundle r :
  bundleDownloadsOf format bundle = Ok r -> well_shaped bundle = true.
Proof.
  unfold bundleDownloadsOf, well_shaped.
  destruct (o_subproducts bundle) as [subproducts|]; simpl; [|discriminate].
  apply forSubproducts_Ok_inv.
Qed.

Lemma forBundles_Ok_inv options bundles downloads w r w' :
  forBundles options bundles downloads w = (Ok r, w') ->
  forallb well_shaped bundles = true.
Proof.
  revert downloads w.
  induction bundles as [|bundle rest IH]; intros downloads w; simpl; [reflexivity|].
  unfold mbind, M_bind, liftR.
  destruct (bundleDownloadsOf (format options) bundle)
    as [[bundleDownloads bundleFormats]|e] eqn:E; [|discriminate].
  apply bundleDownloadsOf_Ok_inv in E. rewrite E. simpl.
  destruct bundleDownloads; simpl; apply IH.
Qed.

(** C6: the loops of [downloadBundles] return the resolved downloads exactly
    on well-shaped bundles; every resolved download has both its format
    label and its URL; and a variant met by the loops that has both is among
    the resolved downloads if and only if the selector is ["all"] or is the
    normalised format of the variant. *)
Theorem downloadBundles_resolves_eligible_selected
    (options : Options) (bundles : list Order) (w : World) :
  (forallb well_shaped bundles = true <->
   exists downloads w', forBundles options bundles [] w = (Ok downloads, w'))
  /\ (forall downloads w',
      forBundles options bundles [] w = (Ok downloads, w') ->
      (forall t, In t downloads -> eligible (t_download t) = true)
      /\ (forall bundle sp v label,
            In bundle bundles -> encountered bundle sp v ->
            eligible v = true -> ds_name v = Some label ->
            (In {| t_bundle := o_human_name bundle; t_download := v;
                   t_name := sp_human_name sp |} downloads
             <-> format options = "all" \/ normalizeFormat label = format options))).
Proof.
  split.
  { split.
    - intros H. destruct (forBundles_ok options bundles [] w H) as (w' & E & _).
      eauto.
    - intros (downloads & w' & E). now apply forBundles_Ok_inv in E. }
  intros downloads w0 E0.
  pose proof (forBundles_Ok_inv _ _ _ _ _ _ E0) as H.
  destruct (forBundles_ok options bundles [] w H) as (w' & E & _).
  rewrite E in E0. injection E0 as <- _. clear E. simpl. split.
  - intros t Ht. apply in_flat_map in Ht as (bundle & _ & Ht).
    apply spec_bundle_tasks_In in Ht as (sp & v & _ & Hsel & ->). simpl.
    unfold spec_selected in Hsel. now apply andb_prop in Hsel as [-> _].
  - intros bundle sp v label Hb Henc He Hn.
    rewrite <- (spec_selected_eligible (format options) v label He Hn).
    rewrite in_flat_map. split.
    + intros (bundle' & _ & Ht).
      apply spec_bundle_tasks_In in Ht as (sp' & v' & _ & Hsel & [= _ <- _]).
      exact Hsel.
    + intros Hsel. exists bundle. split; [exact Hb|].
      apply spec_bundle_tasks_In. exists sp, v. tauto.
Qed.

(** ** Runs without downloads *)

Ltac unfold_M :=
  unfold mbind, mret, M_bind, M_ret, liftR, throw, try_catch, console_log,
    downloadErrors_push, fs_access, fs_read, fs_unlink, pipe_to_file,
    ensureFolderCreated, limiter_schedule in *.

Lemma forBundles_same_but_console options bundles downloads w r w' :
  forBundles options bundles downloads w = (Ok r, w') -> same_but_console w w'.
Proof.
  intros E. pose proof (forBundles_Ok_inv _ _ _ _ _ _ E) as H.
  destruct (forBundles_ok options bundles downloads w H) as (w'' & E' & Hw).
  rewrite E' in E. now injection E as _ <-.
Qed.

(** C8: when the loops of [downloadBundles] resolve no download at all, the
    end of [main] exits normally, having requested nothing, written nothing
    and recorded no error, and (no error being recorded before) its last
    message is the one of a successful run; and a bundle without matching
    variant only adds its diagnostic to the console, the loop going on with
    the remaining bundles. *)
Theorem no_matching_downloads_is_not_an_error
    (sha1_hex md5_hex sanitizeFilename : string -> string)
    (path_resolve : string -> string -> string) (trim : string -> string)
    (remote : string -> FetchOutcome) (options : Options)
    (bundle : Order) (bundles : list Order) (downloads : list Task) (w : World) :
  (forall w1,
     forBundles options bundles [] w = (Ok [], w1) ->
     exists w2,
       main_from_bundles sha1_hex md5_hex sanitizeFilename path_resolve trim remote
         options bundles w = (ExitNormally, w2)
       /\ same_but_console w w2
       /\ (downloadErrors w = [] ->
           exists printed, console w2 = CompletedSuccessfully :: printed))
  /\ (forall bundleFormats,
        bundleDownloadsOf (format options) bundle = Ok ([], bundleFormats) ->
        forBundles options (bundle :: bundles) downloads w
        = forBundles options bundles downloads
            {| files := files w; downloadErrors := downloadErrors w;
               requests := requests w;
               console := NoDownloadsForBundle (format options) (o_human_name bundle)
                            (join ", " (sort bundleFormats)) :: console w |}).
Proof.
  split.
  - intros w1 E. pose proof (forBundles_same_but_console _ _ _ _ _ _ E) as (Hf & He & Hr).
    unfold main_from_bundles, downloadBundles, reportDownloadErrors.
    destruct bundles as [|b rest].
    + unfold_M; simpl. destruct (downloadErrors w) eqn:Ed; simpl;
        eexists; (split; [reflexivity|]); (split; [now repeat split|]); simpl;
        intros; [eauto | discriminate].
    + unfold mbind at 1 2. unfold M_bind at 1 2. rewrite E.
      unfold_M; simpl. rewrite He. destruct (downloadErrors w) eqn:Ed; simpl;
        eexists; (split; [reflexivity|]); (split; [now repeat split|]); simpl;
        intros; [eauto | discriminate].
  - intros bundleFormats E. simpl. unfold mbind, M_bind, liftR. rewrite E.
    reflexivity.
Qed.

(** ** The skip check and the transfer *)

Section Materializer.

Variable sha1_hex md5_hex : string -> string.
Variable sanitizeFilename : string -> string.
Variable path_resolve : string -> string -> string.
Variable trim : string -> string.
Variable remote : string -> FetchOutcome.
Variable options : Options.

Ltac unfold_checkSignatureMatch := unfold checkSignatureMatch; unfold_M.

Ltac unfold_downloadBook_to_check En :=
  unfold downloadBook;
  unfold mbind, M_bind, ensureFolderCreated, mret, M_ret, liftR;
  rewrite En; simpl.

Ltac unfold_downloadBook En Ec Eu :=
  unfold_downloadBook_to_check En; rewrite Ec;
  unfold try_catch, url_web, fetch, downloadFile, pipe_to_file,
    handleFileDownloadError, response_in_catch_block, url_web, throw,
    downloadErrors_push, console_log, fs_unlink;
  unfold mbind, M_bind, mret, M_ret, liftR; rewrite Eu; simpl.

Local Abbreviation checkSignatureMatch := (checkSignatureMatch sha1_hex md5_hex).
Local Abbreviation downloadBook :=
  (downloadBook sha1_hex md5_hex sanitizeFilename path_resolve trim remote options).
Local Abbreviation destination :=
  (destination sanitizeFilename path_resolve trim options).

Lemma checkSignatureMatch_file filePath download w content :
  files w !! filePath = Some content ->
  checkSignatureMatch filePath download w
  = (Ok (verified sha1_hex md5_hex download content), w).
Proof.
  intros E. unfold verified, stronger_hash. unfold_checkSignatureMatch.
  rewrite E; simpl. rewrite E. reflexivity.
Qed.

Lemma checkSignatureMatch_no_file filePath download w :
  files w !! filePath = None ->
  checkSignatureMatch filePath download w = (Ok false, w).
Proof.
  intros E. unfold_checkSignatureMatch. rewrite E. reflexivity.
Qed.

(** [downloadBook] up to the skip check. *)
Lemma downloadBook_skips bundle name download label w content :
  ds_name download = Some label ->
  files w !! destination bundle name label = Some content ->
  verified sha1_hex md5_hex download content = true ->
  downloadBook bundle name download w = (Ok true, w).
Proof.
  intros En Ef Ev. unfold_downloadBook_to_check En.
  rewrite (checkSignatureMatch_file _ _ _ _ Ef), Ev. reflexivity.
Qed.

(** A successful transfer leaves the delivered body at the destination. *)
Lemma downloadBook_downloads bundle name download label url r w :
  ds_name download = Some label -> ds_url download = Some url ->
  checkSignatureMatch (destination bundle name label) download w = (Ok false, w) ->
  remote (web url) = Responds r -> ok r = true -> ends (body r) = true ->
  exists w1,
    downloadBook bundle name download w = (Ok false, w1)
    /\ files w1 !! destination bundle name label = Some (delivered (body r)).
Proof.
  intros En Eu Ec Er Eo Ee. unfold_downloadBook En Ec Eu. rewrite Er, Eo; simpl.
  rewrite Ee. eexists. split; [reflexivity|]. simpl. apply lookup_insert_eq.
Qed.

(** C3: when a file is at the destination and its digest, of the stronger
    advertised kind, is the advertised checksum, [downloadBook] reports a
    skip and leaves the world as it is, trace of requests included; hence,
    when the remote asset is served whole and is the asset the checksum
    advertises, a second [downloadBook] of the same task right after the
    first reports a skip and requests nothing. *)
Theorem downloadBook_idempotent bundle name download label w :
  ds_name download = Some label ->
  (forall content,
     files w !! destination bundle name label = Some content ->
     verified sha1_hex md5_hex download content = true ->
     downloadBook bundle name download w = (Ok true, w))
  /\ (forall url r,
        ds_url download = Some url -> remote (web url) = Responds r ->
        ok r = true -> ends (body r) = true ->
        verified sha1_hex md5_hex download (delivered (body r)) = true ->
        exists skipped w1,
          downloadBook bundle name download w = (Ok skipped, w1)
          /\ downloadBook bundle name download w1 = (Ok true, w1)).
Proof.
  intros En. split.
  - intros content. now apply downloadBook_skips.
  - intros url r Eu Er Eo Ee Ev.
    destruct (files w !! destination bundle name label) as [content|] eqn:Ef.
    + destruct (verified sha1_hex md5_hex download content) eqn:Ec.
      * exists true, w. split; now apply (downloadBook_skips _ _ _ label _ content).
      * destruct (downloadBook_downloads bundle name download label url r w En Eu)
          as (w1 & E1 & Ef1); auto.
        { rewrite (checkSignatureMatch_file _ _ _ _ Ef), Ec. reflexivity. }
        exists false, w1. split; [exact E1|].
        now apply (downloadBook_skips _ _ _ label _ (delivered (body r))).
    + destruct (downloadBook_downloads bundle name download label url r w En Eu)
        as (w1 & E1 & Ef1); auto.
      { now apply checkSignatureMatch_no_file. }
      exists false, w1. split; [exact E1|].
      now apply (downloadBook_skips _ _ _ label _ (delivered (body r))).
Qed.

(** Past the skip check [downloadBook] requests the URL once and does not
    report a skip. *)
Lemma downloadBook_attempt bundle name download label url w :
  ds_name download = Some label -> ds_url download = Some url ->
  checkSignatureMatch (destination bundle name label) download w = (Ok false, w) ->
  exists r w',
    downloadBook bundle name download w = (r, w')
    /\ r <> Ok true /\ requests w' = web url :: requests w.
Proof.
  intros En Eu Ec. unfold_downloadBook En Ec Eu.
  destruct (remote (web url)) as [resp|]; simpl.
  - destruct (ok resp); simpl.
    + destruct (ends (body resp)); simpl;
        eexists _, _; (split; [reflexivity|]); split; [discriminate | reflexivity
                                                      | discriminate | reflexivity].
    + destruct (files w !! destination bundle name label); simpl.
      * destruct (ends (body resp)); simpl;
          eexists _, _; (split; [reflexivity|]); split; [discriminate | reflexivity
                                                        | discriminate | reflexivity].
      * eexists _, _; (split; [reflexivity|]); split; [discriminate | reflexivity].
  - eexists _, _; (split; [reflexivity|]); split; [discriminate | reflexivity].
Qed.

(** C10: for a variant that advertises neither a SHA-1 nor an MD5 checksum
    the skip check answers [false], file or no file at the destination, so
    that [downloadBook] requests the asset and never reports a skip. *)
Theorem unsigned_variant_is_fetched_again bundle name download w :
  ds_sha1 download = None -> ds_md5 download = None ->
  (forall filePath, checkSignatureMatch filePath download w = (Ok false, w))
  /\ (forall label url,
        ds_name download = Some label -> ds_url download = Some url ->
        exists r w',
          downloadBook bundle name download w = (r, w')
          /\ r <> Ok true /\ requests w' = web url :: requests w).
Proof.
  intros Es Em.
  assert (Hc : forall filePath, checkSignatureMatch filePath download w = (Ok false, w)).
  { intros filePath. destruct (files w !! filePath) as [content|] eqn:Ef.
    - rewrite (checkSignatureMatch_file _ _ _ _ Ef).
      unfold verified, stronger_hash. rewrite Es; simpl. now rewrite Em.
    - now apply checkSignatureMatch_no_file. }
  split; [exact Hc|].
  intros label url En Eu. now apply (downloadBook_attempt _ _ _ label).
Qed.

(** What [downloadBook] does when the transfer fails. *)

(** The body breaks off: the read of [response] in the [catch] block throws
    before [handleFileDownloadError] is called, so no error is recorded and
    the partial file stays. *)
Lemma downloadBook_stream_failure bundle name download label url r w :
  ds_name download = Some label -> ds_url download = Some url ->
  checkSignatureMatch (destination bundle name label) download w = (Ok false, w) ->
  remote (web url) = Responds r -> ok r = true -> ends (body r) = false ->
  exists w',
    downloadBook bundle name download w = (Throw (ReferenceError "response"), w')
    /\ downloadErrors w' = downloadErrors w
    /\ files w' !! destination bundle name label = Some (delivered (body r)).
Proof.
  intros En Eu Ec Er Eo Ee. unfold_downloadBook En Ec Eu.
  rewrite Er, Eo; simpl. rewrite Ee.
  eexists. split; [reflexivity|]. split; [reflexivity|]. simpl. apply lookup_insert_eq.
Qed.

(** A response that is not a success, no file at the destination: the error
    is recorded, [unlink] rejects, and the [catch] block throws in turn. *)
Lemma downloadBook_failure_without_file bundle name download label url r w :
  ds_name download = Some label -> ds_url download = Some url ->
  files w !! destination bundle name label = None ->
  remote (web url) = Responds r -> ok r = false ->
  exists w',
    downloadBook bundle name download w = (Throw (ReferenceError "response"), w')
    /\ downloadErrors w'
       = downloadErrors w ++ [{| de_webUrl := web url;
                                 de_filePath := destination bundle name label;
                                 de_status := status r;
                                 de_statusText := statusText r |}]
    /\ files w' = files w.
Proof.
  intros En Eu Ef Er Eo.
  pose proof (checkSignatureMatch_no_file _ download _ Ef) as Ec.
  unfold_downloadBook En Ec Eu. rewrite Er, Eo; simpl. rewrite Ef.
  eexists. split; [reflexivity|]. split; reflexivity.
Qed.

(** A response that is not a success, a stale file at the destination: the
    error is recorded, the file is removed, and then the body of the failed
    response is written to the destination all the same. *)
Lemma downloadBook_failure_over_file bundle name download label url r w content :
  ds_name download = Some label -> ds_url download = Some url ->
  files w !! destination bundle name label = Some content ->
  verified sha1_hex md5_hex download content = false ->
  remote (web url) = Responds r -> ok r = false -> ends (body r) = true ->
  exists w',
    downloadBook bundle name download w = (Ok false, w')
    /\ downloadErrors w'
       = downloadErrors w ++ [{| de_webUrl := web url;
                                 de_filePath := destination bundle name label;
                                 de_status := status r;
                                 de_statusText := statusText r |}]
    /\ files w' !! destination bundle name label = Some (delivered (body r)).
Proof.
  intros En Eu Ef Ev Er Eo Ee.
  pose proof (checkSignatureMatch_file _ download _ _ Ef) as Ec. rewrite Ev in Ec.
  unfold_downloadBook En Ec Eu. rewrite Er, Eo; simpl. rewrite Ef; simpl. rewrite Ee.
  eexists. split; [reflexivity|]. split; [reflexivity|]. simpl. apply lookup_insert_eq.
Qed.

End Materializer.

(** ** The batch driver *)

(** A job that rejects ends the batch: the jobs after it do not run. *)
Lemma async_each_rejects {A} (iteratee : A -> M unit) x rest e w w' :
  iteratee x w = (Throw e, w') ->
  async_each (x :: rest) iteratee w = (Throw e, w').
Proof. intros E. simpl. unfold mbind, M_bind. now rewrite E. Qed.

(** A job that resolves hands the world over to the next one. *)
Lemma async_each_resolves {A} (iteratee : A -> M unit) x rest w w' :
  iteratee x w = (Ok tt, w') ->
  async_each (x :: rest) iteratee w = async_each rest iteratee w'.
Proof. intros E. simpl. unfold mbind, M_bind. now rewrite E. Qed.

(** ** The engine on the concrete environment *)

Example destination_of_book : Demo.destination "Bundle" "Book" "EPUB" = "download/Bundle/Book.epub".
Proof. reflexivity. Qed.

(** Only the order with an ebook is retained, and the selector [epub] then
    resolves one download, the selector [all] two. *)
Example catalog_retained :
  filterOrders (map Some Demo.catalog) = [Some (Demo.order "Books"
    [Demo.book "Book" [Demo.ebook [Demo.ok_variant; Demo.pdf_variant]]])].
Proof. reflexivity. Qed.

Example catalog_epub :
  fst (forBundles Demo.options Demo.catalog [] Demo.empty_world)
  = Ok [ {| t_bundle := "Books"; t_download := Demo.ok_variant; t_name := "Book" |} ].
Proof. reflexivity. Qed.

Example catalog_all :
  fst (forBundles {| downloadFolder := "download"; downloadLimit := 1; format := "all" |}
         Demo.catalog [] Demo.empty_world)
  = Ok [ {| t_bundle := "Books"; t_download := Demo.ok_variant; t_name := "Book" |};
         {| t_bundle := "Books"; t_download := Demo.pdf_variant; t_name := "Book" |} ].
Proof. reflexivity. Qed.

(** C1, at the failing input: a batch of two downloads with the default
    limit, the first asset answered by 404 with no file at its destination,
    the second asset served.  The error of the first download is recorded,
    but [unlink] rejects, the [catch] block of [downloadBook] throws, and
    the run exits with a failure: the second asset is never requested and
    its file is never written. *)
Theorem batch_aborts_on_failed_transfer :
  fst (Demo.main_from_bundles Demo.failing_batch Demo.empty_world) = ExitFailure
  /\ requests (snd (Demo.main_from_bundles Demo.failing_batch Demo.empty_world))
     = ["https://dl/missing.epub"]
  /\ files (snd (Demo.main_from_bundles Demo.failing_batch Demo.empty_world))
       !! "download/Bundle/B.epub" = None
  /\ downloadErrors (snd (Demo.main_from_bundles Demo.failing_batch Demo.empty_world))
     = [{| de_webUrl := "https://dl/missing.epub";
           de_filePath := "download/Bundle/A.epub";
           de_status := 404; de_statusText := "Not Found" |}]
  /\ hd_error (console (snd (Demo.main_from_bundles Demo.failing_batch Demo.empty_world)))
     = Some (ErrorOccurred (ReferenceError "response")).
Proof. repeat split; vm_compute; reflexivity. Qed.

(** C2, at the failing inputs.  A body that breaks off in the middle of the
    transfer: no error is recorded and the partial file stays at the
    destination.  A 404 over a stale file at the destination: the error is
    recorded and the file removed, but the body of the 404 response is then
    written to the destination. *)
Theorem failed_transfer_leaves_a_file :
  (fst (Demo.downloadBook "Bundle" "Book" Demo.broken_variant Demo.empty_world)
   = Throw (ReferenceError "response")
   /\ downloadErrors (snd (Demo.downloadBook "Bundle" "Book" Demo.broken_variant
                             Demo.empty_world)) = []
   /\ files (snd (Demo.downloadBook "Bundle" "Book" Demo.broken_variant Demo.empty_world))
        !! "download/Bundle/Book.epub" = Some "EPUB-")
  /\ (fst (Demo.downloadBook "Bundle" "Book" Demo.missing_variant
             (Demo.world_with "download/Bundle/Book.epub" "stale"))
      = Ok false
      /\ length (downloadErrors (snd (Demo.downloadBook "Bundle" "Book" Demo.missing_variant
                   (Demo.world_with "download/Bundle/Book.epub" "stale")))) = 1
      /\ files (snd (Demo.downloadBook "Bundle" "Book" Demo.missing_variant
                       (Demo.world_with "download/Bundle/Book.epub" "stale")))
           !! "download/Bundle/Book.epub" = Some "<html>404</html>").
Proof. repeat split; vm_compute; reflexivity. Qed.

(** ** Instances of the general results *)

Lemma fetchOrders_retains_ebook_orders_witness :
  retained (Some (Demo.order "Books" [Demo.book "Book" [Demo.ebook [Demo.ok_variant]]])) = true.
Proof.
  apply (proj1 (fetchOrders_retains_ebook_orders _)).
  unfold has_ebook_platform. do 5 eexists.
  split; [reflexivity|]. split; [reflexivity|]. split; [now left|].
  split; [reflexivity|]. split; [now left | reflexivity].
Defined.

Lemma downloadBundles_resolves_eligible_selected_witness :
  exists downloads w',
    forBundles Demo.options Demo.catalog [] Demo.empty_world = (Ok downloads, w').
Proof.
  apply (proj1 (proj1 (downloadBundles_resolves_eligible_selected
                         Demo.options Demo.catalog Demo.empty_world))).
  reflexivity.
Defined.

Lemma no_matching_downloads_is_not_an_error_witness :
  exists w2,
    Demo.main_from_bundles [Demo.order "Music" [Demo.book "Album" [Demo.audio]]]
      Demo.empty_world = (ExitNormally, w2)
    /\ same_but_console Demo.empty_world w2
    /\ (downloadErrors Demo.empty_world = [] ->
        exists printed, console w2 = CompletedSuccessfully :: printed).
Proof.
  eapply (proj1 (no_matching_downloads_is_not_an_error
                   Demo.sha1_hex Demo.md5_hex Demo.sanitizeFilename Demo.path_resolve
                   Demo.trim Demo.remote Demo.options
                   (Demo.order "Music" []) _ [] Demo.empty_world)).
  reflexivity.
Defined.

Lemma downloadBook_idempotent_witness :
  exists skipped w1,
    Demo.downloadBook "Bundle" "Book" Demo.ok_variant Demo.empty_world = (Ok skipped, w1)
    /\ Demo.downloadBook "Bundle" "Book" Demo.ok_variant w1 = (Ok true, w1).
Proof.
  apply (proj2 (downloadBook_idempotent
                  Demo.sha1_hex Demo.md5_hex Demo.sanitizeFilename Demo.path_resolve
                  Demo.trim Demo.remote Demo.options
                  "Bundle" "Book" Demo.ok_variant "EPUB" Demo.empty_world eq_refl)
           {| web := "https://dl/ok.epub" |}
           {| status := 200; statusText := "OK";
              body := {| delivered := "EPUB-BYTES"; ends := true |} |});
    reflexivity.
Defined.

Lemma unsigned_variant_is_fetched_again_witness :
  Demo.checkSignatureMatch "download/Bundle/Book.epub" Demo.unsigned_variant
    (Demo.world_with "download/Bundle/Book.epub" "EPUB-BYTES")
  = (Ok false, Demo.world_with "download/Bundle/Book.epub" "EPUB-BYTES").
Proof.
  apply (proj1 (unsigned_variant_is_fetched_again
                  Demo.sha1_hex Demo.md5_hex Demo.sanitizeFilename Demo.path_resolve
                  Demo.trim Demo.remote Demo.options
                  "Bundle" "Book" Demo.unsigned_variant
                  (Demo.world_with "download/Bundle/Book.epub" "EPUB-BYTES")
                  eq_refl eq_refl)).
Defined.

(** * Further properties of the code *)

(** ** Formats *)

(** [normalizeFormat] gives a normal form: applying it again changes
    nothing, its result is in lower case, and none of the four raw labels
    of its [case] branches is ever a result. *)
Theorem normalizeFormat_normal_form (label : string) :
  normalizeFormat (normalizeFormat label) = normalizeFormat label
  /\ toLowerCase (normalizeFormat label) = normalizeFormat label
  /\ ~ In (normalizeFormat label) [".cbz"; "pdf (hq)"; "pdf (hd)"; "download"].
Proof.
  split; [|split; [apply normalizeFormat_lowercase|]].
  - destruct (normalizeFormat_cases label)
      as [[_ ->]|[[_ ->]|[[_ ->]|[[_ ->]|(E1 & E2 & E3 & E4 & ->)]]]];
      try reflexivity.
    unfold normalizeFormat; cbv zeta. rewrite toLowerCase_idempotent.
    apply str_eq_false in E1, E2, E3, E4. now rewrite E1, E2, E3, E4.
  - destruct (normalizeFormat_cases label)
      as [[_ ->]|[[_ ->]|[[_ ->]|[[_ ->]|(E1 & E2 & E3 & E4 & ->)]]]];
      simpl; try (intros [H|[H|[H|[H|[]]]]]; discriminate H).
    intros [H|[H|[H|[H|[]]]]]; congruence.
Qed.

Lemma string_app_cancel (n a b : string) : (n ++ a)%string = (n ++ b)%string -> a = b.
Proof. induction n as [|c n IH]; simpl; [tauto|]. intros [= H]. auto. Qed.

(** The file names of [downloadBook] (lines 430-434) tell the normalised
    formats apart: two variants of one book get the same file name only if
    their labels have the same normalised format. *)
Theorem fileName_determines_format (name label1 label2 : string) :
  (name ++ getExtension (normalizeFormat label1))%string
  = (name ++ getExtension (normalizeFormat label2))%string ->
  normalizeFormat label1 = normalizeFormat label2.
Proof.
  intros H. apply string_app_cancel in H. revert H. unfold getExtension.
  rewrite !normalizeFormat_lowercase.
  destruct (str_eq (normalizeFormat label1) "pdf_hd") eqn:E1;
    destruct (str_eq (normalizeFormat label2) "pdf_hd") eqn:E2.
  - apply str_eq_true in E1, E2. congruence.
  - intros H. discriminate H.
  - intros H. discriminate H.
  - intros [= H]. exact H.
Qed.

Lemma fileName_determines_format_witness : normalizeFormat "Download" = normalizeFormat "PDF".
Proof. apply (fileName_determines_format "Book"). reflexivity. Defined.

(** ** Configuration validation *)

(** The three outcomes of the validation of [main]: the first message
    exactly when the value read before the command line is parsed is not an
    allowed format, the second one when that value is allowed and the
    resolved format is not, and the run goes on otherwise.  As
    [commander.format] is still undefined at line 573, a run that goes on
    has an allowed format in its configuration file: the declared default
    never stands in for a missing key. *)
Theorem main_validation_outcomes (i : FormatInputs) :
  (main_validation i = InvalidFormatProvided <->
   ~ allowed_format (nullish (commander_format_before_parse i) (config_format i)))
  /\ (main_validation i = InvalidFormatSelected <->
      allowed_format (nullish (commander_format_before_parse i) (config_format i))
      /\ ~ allowed_format (resolved_format i))
  /\ (main_validation i = Proceeds <->
      allowed_format (nullish (commander_format_before_parse i) (config_format i))
      /\ allowed_format (resolved_format i))
  /\ (commander_format_before_parse i = None -> main_validation i = Proceeds ->
      allowed_format (config_format i)).
Proof.
  assert (H : forall v, (indexOf ALLOWED_FORMATS v =? -1)%Z = true <-> ~ allowed_format v).
  { intros v. rewrite <- indexOf_ALLOWED_FORMATS.
    destruct (indexOf ALLOWED_FORMATS v =? -1)%Z; intuition congruence. }
  unfold main_validation.
  destruct (indexOf ALLOWED_FORMATS (nullish _ _) =? -1)%Z eqn:E1.
  - apply H in E1. repeat split; try tauto; try discriminate.
  - apply indexOf_ALLOWED_FORMATS in E1.
    destruct (indexOf ALLOWED_FORMATS (resolved_format i) =? -1)%Z eqn:E2.
    + apply H in E2. repeat split; try tauto; try discriminate.
    + apply indexOf_ALLOWED_FORMATS in E2.
      repeat split; try tauto; try discriminate.
      intros E _. rewrite E in E1. exact E1.
Qed.

Lemma main_validation_outcomes_witness :
  allowed_format (Some "pdf").
Proof.
  apply (proj2 (proj2 (proj2 (main_validation_outcomes
           {| config_format := Some "pdf"; commander_format_before_parse := None;
              cli_format := Some "epub" |})))); reflexivity.
Defined.

(** ** [flatten] *)

Lemma fold_left_concat {A B} (f : B -> list A) (l : list B) (acc : list A) :
  fold_left (fun a b => a ++ f b) l acc = acc ++ flat_map f l.
Proof.
  revert acc. induction l as [|x rest IH]; intros acc; simpl.
  - now rewrite app_nil_r.
  - rewrite IH, <- app_assoc. reflexivity.
Qed.

Lemma flatten_item_leaves {A} : forall b : Nested A, flatten_item b = leaves b.
Proof.
  fix IH 1. intros [a|l]; simpl; [reflexivity|].
  rewrite fold_left_concat. simpl.
  induction l as [|x rest IHl]; simpl; [reflexivity|].
  now rewrite (IH x), IHl.
Qed.

(** [flatten] returns the leaves of its argument from left to right,
    whatever the depth of the nesting: it goes through an array entry, keeps
    any other entry, and distributes over concatenation. *)
Theorem flatten_leaves_in_order {A} (l1 l2 : list (Nested A)) (a : A) :
  flatten l1 = flat_map leaves l1
  /\ flatten (l1 ++ l2) = flatten l1 ++ flatten l2
  /\ flatten (Arr l1 :: l2) = flatten l1 ++ flatten l2
  /\ flatten (Leaf a :: l2) = a :: flatten l2.
Proof.
  assert (H : forall l : list (Nested A), flatten l = flat_map leaves l).
  { intros l. unfold flatten. rewrite fold_left_concat. simpl.
    apply flat_map_ext. intros b. apply flatten_item_leaves. }
  rewrite !H. split; [reflexivity|]. split; [apply flat_map_app|].
  split; reflexivity.
Qed.

(** ** The formats reported for a bundle *)

Lemma includes_In (l : list string) (x : string) : includes l x = true <-> In x l.
Proof.
  unfold includes. rewrite existsb_exists. split.
  - intros (y & Hy & E). apply str_eq_true in E. now subst.
  - intros H. exists x. split; [exact H | apply str_eq_refl].
Qed.

Lemma filterCallback_formats format (download : option DownloadStruct) bundleFormats :
  snd (filterCallback format download bundleFormats)
  = match download ≫= recorded_format with
    | Some f => if includes bundleFormats f then bundleFormats else bundleFormats ++ [f]
    | None => bundleFormats
    end.
Proof.
  unfold filterCallback, recorded_format, eligible. destruct download as [d|];
    [|reflexivity].
  change (Some d ≫= ds_name) with (ds_name d).
  change (Some d ≫= ds_url) with (ds_url d).
  change (Some d ≫= _)
    with (if truthy (ds_name d) && present (ds_url d)
             && includes SUPPORTED_FORMATS (normalizeFormat (default "" (ds_name d)))
          then Some (normalizeFormat (default "" (ds_name d)))
          else None).
  destruct (truthy (ds_name d)); [|reflexivity].
  destruct (present (ds_url d)); [|reflexivity].
  cbn [negb orb andb snd].
  destruct (includes SUPPORTED_FORMATS (normalizeFormat (default "" (ds_name d)))).
  - now destruct (includes bundleFormats (normalizeFormat (default "" (ds_name d)))).
  - now rewrite andb_false_r.
Qed.

Lemma filterDownloadStructs_formats format downloadStructs bundleFormats :
  let bundleFormats' := snd (filterDownloadStructs format downloadStructs bundleFormats) in
  (NoDup bundleFormats -> NoDup bundleFormats')
  /\ (forall f, In f bundleFormats' <->
        In f bundleFormats
        \/ exists v, In (Some v) downloadStructs /\ recorded_format v = Some f)
  /\ (forall format',
        snd (filterDownloadStructs format' downloadStructs bundleFormats) = bundleFormats').
Proof.
  cbv zeta. revert bundleFormats.
  induction downloadStructs as [|download rest IH]; intros bundleFormats; simpl.
  - split; [tauto|]. split; [|reflexivity]. intros f. split; [tauto|].
    intros [H|(v & [] & _)]. exact H.
  - pose proof (filterCallback_formats format download bundleFormats) as Hc.
    destruct (filterCallback format download bundleFormats) as [keep bf1] eqn:Ec.
    simpl in Hc.
    destruct (IH bf1) as (IH1 & IH2 & IH3).
    destruct (filterDownloadStructs format rest bf1) as [kept bf2] eqn:Er. simpl in *.
    assert (Hbf1 : (NoDup bundleFormats -> NoDup bf1)
                   /\ (forall f, In f bf1 <->
                         In f bundleFormats \/ download ≫= recorded_format = Some f)).
    { rewrite Hc. destruct (download ≫= recorded_format) as [g|].
      - destruct (includes bundleFormats g) eqn:Ei.
        + apply includes_In in Ei. split; [tauto|]. intros f. split; [tauto|].
          intros [H|[= <-]]; tauto.
        + split.
          * intros Hn. apply NoDup_app. split; [exact Hn|]. split.
            -- intros x Hx [->|[]]%list_elem_of_In.
               apply list_elem_of_In, includes_In in Hx. congruence.
            -- apply NoDup_singleton.
          * intros f. rewrite in_app_iff. simpl. split.
            -- intros [H|[<-|[]]]; tauto.
            -- intros [H|[= <-]]; tauto.
      - split; [tauto|]. intros f. split; [tauto|]. intros [H|[=]]. exact H. }
    destruct Hbf1 as [Hn1 Hin1]. split; [tauto|]. split.
    + intros f. rewrite IH2, Hin1. split.
      * intros [[H|H]|(v & Hv & Hf)].
        -- now left.
        -- right. destruct download as [d|]; [|discriminate].
           exists d. split; [now left | exact H].
        -- right. exists v. split; [now right | exact Hf].
      * intros [H|(v & [->|Hv] & Hf)].
        -- now left; left.
        -- left; right. exact Hf.
        -- right. exists v. tauto.
    + intros format'.
      pose proof (filterCallback_formats format' download bundleFormats) as Hc'.
      destruct (filterCallback format' download bundleFormats) as [keep' bf1'].
      simpl in Hc'. rewrite <- Hc in Hc'. subst bf1'.
      specialize (IH3 format').
      destruct (filterDownloadStructs format' rest bf1) as [kept' bf2']. exact IH3.
Qed.

Lemma filterEbook_spec downloads filtered :
  filterEbook downloads = Ok filtered -> filtered = spec_ebook_downloads downloads.
Proof.
  intros E. pose proof (filterEbook_Ok_inv _ _ E) as H.
  rewrite (filterEbook_ok _ H) in E. now injection E.
Qed.

Lemma subproductDownloads_formats format bundleName subproduct bundleFormats pushed
    bundleFormats' :
  subproductDownloads format bundleName subproduct bundleFormats
  = Ok (pushed, bundleFormats') ->
  (NoDup bundleFormats -> NoDup bundleFormats')
  /\ (forall f, In f bundleFormats' <->
        In f bundleFormats
        \/ exists sp downloads d structs v,
             subproduct = Some sp /\ sp_downloads sp = Some downloads
             /\ In (Some d) downloads /\ d_platform d = Some "ebook"
             /\ d_download_struct d = Some structs /\ In (Some v) structs
             /\ recorded_format v = Some f)
  /\ (forall format', exists pushed',
        subproductDownloads format' bundleName subproduct bundleFormats
        = Ok (pushed', bundleFormats')).
Proof.
  unfold subproductDownloads.
  destruct subproduct as [sp|]; simpl; [|discriminate].
  destruct (sp_downloads sp) as [downloads|] eqn:Ed; simpl; [|discriminate].
  destruct (filterEbook downloads) as [filtered|e] eqn:Ef; simpl; [|discriminate].
  apply filterEbook_spec in Ef. subst filtered.
  set (structs := flat_map (fun d => default [] (d_download_struct d))
                    (spec_ebook_downloads downloads)).
  destruct (filterDownloadStructs_formats format structs bundleFormats)
    as (H1 & H2 & H3).
  destruct (filterDownloadStructs format structs bundleFormats) as [kept bf] eqn:Ek.
  simpl in *. intros [= <- <-]. split; [exact H1|]. split.
  - intros f. rewrite H2. split.
    + intros [H|(v & Hv & Hf)]; [now left|right].
      apply in_flat_map in Hv as (d & Hd & Hv).
      apply spec_ebook_downloads_In in Hd as [Hd Hp].
      destruct (d_download_struct d) as [ss|] eqn:Es; [|contradiction].
      exists sp, downloads, d, ss, v. tauto.
    + intros [H|(sp' & downloads' & d & ss & v & [= <-] & Ed' & Hd & Hp & Es & Hv & Hf)];
        [now left|right].
      rewrite Ed in Ed'. injection Ed' as <-.
      exists v. split; [|exact Hf]. apply in_flat_map. exists d. split.
      * apply spec_ebook_downloads_In. tauto.
      * now rewrite Es.
  - intros format'. specialize (H3 format').
    destruct (filterDownloadStructs format' structs bundleFormats) as [kept' bf'].
    simpl in H3. subst bf'. eauto.
Qed.

Lemma forSubproducts_formats format bundleName subproducts bundleDownloads bundleFormats
    out bundleFormats' :
  forSubproducts format bundleName subproducts bundleDownloads bundleFormats
  = Ok (out, bundleFormats') ->
  (NoDup bundleFormats -> NoDup bundleFormats')
  /\ (forall f, In f bundleFormats' <->
        In f bundleFormats
        \/ exists sp downloads d structs v,
             In (Some sp) subproducts /\ sp_downloads sp = Some downloads
             /\ In (Some d) downloads /\ d_platform d = Some "ebook"
             /\ d_download_struct d = Some structs /\ In (Some v) structs
             /\ recorded_format v = Some f)
  /\ (forall format' bundleDownloads', exists out',
        forSubproducts format' bundleName subproducts bundleDownloads' bundleFormats
        = Ok (out', bundleFormats')).
Proof.
  revert bundleDownloads bundleFormats.
  induction subproducts as [|subproduct rest IH]; intros bundleDownloads bundleFormats;
    simpl.
  - intros [= <- <-]. split; [tauto|]. split; [|eauto].
    intros f. split; [tauto|]. intros [H|(sp & ? & ? & ? & ? & [] & _)]. exact H.
  - destruct (subproductDownloads format bundleName subproduct bundleFormats)
      as [[pushed bf1]|e] eqn:E; simpl; [|discriminate].
    intros Er.
    destruct (subproductDownloads_formats _ _ _ _ _ _ E) as (S1 & S2 & S3).
    destruct (IH _ _ Er) as (R1 & R2 & R3).
    split; [tauto|]. split.
    + intros f. rewrite R2, S2. split.
      * intros [[H|(sp & ds & d & ss & v & -> & H)]|(sp & ds & d & ss & v & Hsp & H)].
        -- now left.
        -- right. exists sp, ds, d, ss, v. split; [now left | exact H].
        -- right. exists sp, ds, d, ss, v. split; [now right | exact H].
      * intros [H|(sp & ds & d & ss & v & [->|Hsp] & H)].
        -- now left; left.
        -- left; right. exists sp, ds, d, ss, v. tauto.
        -- right. exists sp, ds, d, ss, v. tauto.
    + intros format' bundleDownloads'.
      destruct (S3 format') as [pushed' ->]. simpl. apply R3.
Qed.

(** The formats that [downloadBundles] reports for a bundle without a
    matching download (lines 469 and 487-492, printed at line 513): no
    format is listed twice; the formats listed are the normalised formats of
    the variants met by the loops that have a label and a URL, as far as
    they are supported formats; and the list is the same whatever the
    selector. *)
Theorem bundleFormats_available format bundle tasks bundleFormats :
  bundleDownloadsOf format bundle = Ok (tasks, bundleFormats) ->
  NoDup bundleFormats
  /\ (forall f, In f bundleFormats <->
        exists sp v, encountered bundle sp v /\ recorded_format v = Some f)
  /\ (forall f, In f bundleFormats -> In f SUPPORTED_FORMATS)
  /\ (forall format', exists tasks',
        bundleDownloadsOf format' bundle = Ok (tasks', bundleFormats)).
Proof.
  unfold bundleDownloadsOf, encountered.
  destruct (o_subproducts bundle) as [subproducts|]; simpl; [|discriminate].
  intros E. destruct (forSubproducts_formats _ _ _ _ _ _ _ E) as (H1 & H2 & H3).
  assert (Hin : forall f, In f bundleFormats <->
            exists sp v,
              (exists subproducts0 downloads d structs,
                 Some subproducts = Some subproducts0 /\ In (Some sp) subproducts0
                 /\ sp_downloads sp = Some downloads /\ In (Some d) downloads
                 /\ d_platform d = Some "ebook"
                 /\ d_download_struct d = Some structs /\ In (Some v) structs)
              /\ recorded_format v = Some f).
  { intros f. rewrite H2. split.
    - intros [[]|(sp & ds & d & ss & v & Hsp & Hd & Hin & Hp & Hs & Hv & Hf)].
      exists sp, v. split; [|exact Hf]. exists subproducts, ds, d, ss. tauto.
    - intros (sp & v & (? & ds & d & ss & [= <-] & Hsp & Hd & Hin & Hp & Hs & Hv) & Hf).
      right. exists sp, ds, d, ss, v. tauto. }
  split; [apply H1; constructor|]. split; [exact Hin|]. split.
  - intros f Hf. apply Hin in Hf as (sp & v & _ & Hf).
    unfold recorded_format in Hf.
    destruct (eligible v); cbn [andb] in Hf; [|discriminate].
    destruct (includes SUPPORTED_FORMATS (normalizeFormat (default "" (ds_name v))))
      eqn:Ei; [|discriminate].
    apply includes_In in Ei. now injection Hf as <-.
  - intros format'. apply (H3 format' []).
Qed.

Lemma bundleFormats_available_witness : NoDup ["epub"; "pdf"].
Proof.
  eapply (proj1 (bundleFormats_available "mobi"
                   (Demo.order "Books"
                      [Demo.book "Book" [Demo.ebook [Demo.ok_variant; Demo.pdf_variant;
                                                     Demo.ok_variant]]]) [] _ _)).
  Unshelve. reflexivity.
Defined.

(** ** The filter of [fetchOrders] and the resolution *)

Lemma encountered_has_ebook_platform bundle sp v :
  encountered bundle sp v -> has_ebook_platform (Some bundle).
Proof.
  intros (subproducts & downloads & d & structs & Es & Hsp & Ed & Hd & Hp & _).
  exists bundle, subproducts, sp, downloads, d. tauto.
Qed.

(** The filter of [fetchOrders] loses nothing: an order it drops would give
    [downloadBundles] no download and no available format, whatever the
    selector. *)
Theorem dropped_orders_have_no_download format bundle tasks bundleFormats :
  retained (Some bundle) = false ->
  bundleDownloadsOf format bundle = Ok (tasks, bundleFormats) ->
  tasks = [] /\ bundleFormats = [].
Proof.
  intros Hr E.
  assert (Hno : forall sp v, ~ encountered bundle sp v).
  { intros sp v H. apply encountered_has_ebook_platform in H.
    apply retained_has_ebook_platform in H. congruence. }
  split.
  - pose proof (bundleDownloadsOf_Ok_inv _ _ _ E) as Hw.
    destruct (bundleDownloadsOf_ok format bundle Hw) as [bf E'].
    rewrite E' in E. injection E as <- _.
    destruct (spec_bundle_tasks format bundle) as [|t ts] eqn:Et; [reflexivity|].
    assert (Ht : In t (spec_bundle_tasks format bundle)) by (rewrite Et; now left).
    apply spec_bundle_tasks_In in Ht as (sp & v & H & _). now apply Hno in H.
  - unfold bundleDownloadsOf in E.
    destruct (o_subproducts bundle) as [subproducts|] eqn:Es; simpl in E; [|discriminate].
    destruct (forSubproducts_formats _ _ _ _ _ _ _ E) as (_ & H2 & _).
    destruct bundleFormats as [|f fs]; [reflexivity|].
    destruct (proj1 (H2 f) (or_introl eq_refl))
      as [[]|(sp & ds & d & ss & v & Hsp & Hd & Hin & Hp & Hs & Hv & _)].
    exfalso. apply (Hno sp v). exists subproducts, ds, d, ss. tauto.
Qed.

Lemma dropped_orders_have_no_download_witness :
  @nil Task = [] /\ @nil string = [].
Proof.
  apply (dropped_orders_have_no_download "all"
           (Demo.order "Music" [Demo.book "Album" [Demo.audio]]) [] []);
    reflexivity.
Defined.

(** ** The skip check and the footprint of one download *)

Section Footprint.

Variable sha1_hex md5_hex : string -> string.
Variable sanitizeFilename : string -> string.
Variable path_resolve : string -> string -> string.
Variable trim : string -> string.
Variable remote : string -> FetchOutcome.
Variable options : Options.

Ltac unfold_book :=
  unfold downloadBook, checkSignatureMatch;
  unfold try_catch, url_web, fetch, downloadFile, pipe_to_file,
    handleFileDownloadError, response_in_catch_block, url_web, throw,
    downloadErrors_push, console_log, fs_unlink, fs_access, fs_read,
    ensureFolderCreated, deref;
  unfold mbind, M_bind, mret, M_ret, liftR; simpl.

Ltac split_cases :=
  repeat match goal with
         | |- context [match ?x with _ => _ end] =>
             lazymatch x with
             | context [match _ with _ => _ end] => fail
             | _ => destruct x eqn:?; simpl
             end
         end.

Local Abbreviation checkSignatureMatch := (checkSignatureMatch sha1_hex md5_hex).
Local Abbreviation downloadBook :=
  (downloadBook sha1_hex md5_hex sanitizeFilename path_resolve trim remote options).
Local Abbreviation destination :=
  (destination sanitizeFilename path_resolve trim options).

(** The skip check looks at one digest only: the SHA-1 when the variant
    advertises a (non-empty) SHA-1, whatever its MD5 says, and the MD5
    otherwise. *)
Theorem checkSignatureMatch_one_digest filePath download content w :
  files w !! filePath = Some content ->
  (forall s, ds_sha1 download = Some s -> s <> "" ->
     checkSignatureMatch filePath download w = (Ok (str_eq (sha1_hex content) s), w))
  /\ (truthy (ds_sha1 download) = false ->
      checkSignatureMatch filePath download w
      = (Ok (digest_eq (md5_hex content) (ds_md5 download)), w)).
Proof.
  intros Ef. split.
  - intros s Es Hs. unfold_book. rewrite Ef; simpl. rewrite Ef, Es; simpl.
    apply str_eq_false in Hs. rewrite Hs; simpl. now rewrite Es.
  - intros Es. unfold_book. rewrite Ef; simpl. now rewrite Ef, Es.
Qed.


End Footprint.

(** ** The batch of downloads *)



Section Batch.

Variable sha1_hex md5_hex : string -> string.
Variable sanitizeFilename : string -> string.
Variable path_resolve : string -> string -> string.
Variable trim : string -> string.
Variable remote : string -> FetchOutcome.
Variable options : Options.

Ltac unfold_job :=
  unfold downloadJob, limiter_schedule, console_log;
  unfold mbind at 1 2; unfold M_bind at 1 2.

Ltac unfold_book :=
  unfold downloadBook, checkSignatureMatch;
  unfold try_catch, url_web, fetch, downloadFile, pipe_to_file,
    handleFileDownloadError, response_in_catch_block, url_web, throw,
    downloadErrors_push, console_log, fs_unlink, fs_access, fs_read,
    ensureFolderCreated, deref;
  unfold mbind, M_bind, mret, M_ret, liftR; simpl.

Ltac split_cases :=
  repeat match goal with
         | |- context [match ?x with _ => _ end] =>
             lazymatch x with
             | context [match _ with _ => _ end] => fail
             | _ => destruct x eqn:?; simpl
             end
         end.

Ltac unfold_downloadBook En Ec Eu :=
  unfold downloadBook;
  unfold mbind, M_bind, ensureFolderCreated, mret, M_ret, liftR;
  rewrite En; simpl; rewrite Ec;
  unfold try_catch, url_web, fetch, downloadFile, pipe_to_file,
    handleFileDownloadError, response_in_catch_block, url_web, throw,
    downloadErrors_push, console_log, fs_unlink;
  unfold mbind, M_bind, mret, M_ret, liftR; rewrite Eu; simpl.

Ltac unfold_main :=
  unfold main_from_bundles, downloadBundles, reportDownloadErrors.

Local Abbreviation downloadBook :=
  (downloadBook sha1_hex md5_hex sanitizeFilename path_resolve trim remote options).
Local Abbreviation downloadJob :=
  (downloadJob sha1_hex md5_hex sanitizeFilename path_resolve trim remote options).
Local Abbreviation destination :=
  (destination sanitizeFilename path_resolve trim options).
Local Abbreviation main_from_bundles :=
  (main_from_bundles sha1_hex md5_hex sanitizeFilename path_resolve trim remote options).

Local Abbreviation in_place :=
  (in_place sha1_hex md5_hex sanitizeFilename path_resolve trim options).

Lemma downloadJob_skips t w :
  in_place (files w) t ->
  exists w', downloadJob t w = (Ok tt, w') /\ same_but_console w w'.
Proof.
  intros (label & content & En & Ef & Ev). unfold_job.
  set (w1 := {| files := files w; downloadErrors := downloadErrors w;
                requests := requests w;
                console := Downloading t :: console w |}).
  rewrite (downloadBook_skips sha1_hex md5_hex sanitizeFilename path_resolve trim
             remote options _ _ _ label w1 content En Ef Ev).
  eexists. split; [reflexivity|]. now repeat split.
Qed.

Lemma async_each_skips tasks w :
  (forall t, In t tasks -> in_place (files w) t) ->
  exists w', async_each tasks downloadJob w = (Ok tt, w') /\ same_but_console w w'.
Proof.
  revert w. induction tasks as [|t rest IH]; intros w H; simpl.
  - exists w. now repeat split.
  - destruct (downloadJob_skips t w) as (w1 & E1 & Hf & He & Hr); [apply H; now left|].
    unfold mbind, M_bind. rewrite E1.
    destruct (IH w1) as (w' & E & Hf' & He' & Hr').
    { intros t' Ht'. rewrite Hf. apply H. now right. }
    exists w'. split; [exact E|]. unfold same_but_console. split; [|split]; congruence.
Qed.

(** A run over downloads that are all in place, digest verified: every
    download is skipped, nothing is requested, no file changes, no error is
    recorded and the run exits normally. *)
Theorem rerun_requests_nothing bundles tasks w w0 :
  forBundles options bundles [] w = (Ok tasks, w0) ->
  (forall t, In t tasks -> in_place (files w) t) ->
  exists w', main_from_bundles bundles w = (ExitNormally, w') /\ same_but_console w w'.
Proof.
  intros E H. pose proof (forBundles_same_but_console _ _ _ _ _ _ E) as (Hf & He & Hr).
  unfold_main. destruct bundles as [|b rest].
  - unfold_M. simpl. destruct (downloadErrors w) eqn:Ed; simpl;
      eexists; (split; [reflexivity|]); unfold same_but_console; simpl; auto.
  - unfold mbind at 1 2. unfold M_bind at 1 2. rewrite E.
    destruct tasks as [|t ts].
    + unfold_M. simpl. destruct (downloadErrors w0) eqn:Ed; simpl;
        eexists; (split; [reflexivity|]); unfold same_but_console; simpl; auto.
    + destruct (async_each_skips (t :: ts) w0) as (w1 & E1 & Hf1 & He1 & Hr1).
      { intros t' Ht'. rewrite Hf. now apply H. }
      unfold mbind, M_bind. rewrite E1. unfold console_log.
      destruct (downloadErrors w1) eqn:Ed; simpl;
        eexists; (split; [reflexivity|]); unfold same_but_console; simpl;
        (split; [|split]); congruence.
Qed.





(** What one [downloadBook] adds to the trace of requests and to
    [downloadErrors]. *)
Lemma downloadBook_counts bundle name download r w w' :
  downloadBook bundle name download w = (r, w') ->
  exists new errors,
    requests w' = new ++ requests w
    /\ downloadErrors w' = downloadErrors w ++ errors
    /\ length errors <= length new <= 1.
Proof.
  unfold_book.
  destruct (ds_name download) as [label|] eqn:En; simpl.
  2:{ intros [= <- <-]. exists [], []. rewrite app_nil_r. simpl. auto. }
  split_cases; intros [= <- <-]; simpl;
    first [ exists [], []; rewrite app_nil_r; simpl; now auto
          | eexists [_], []; rewrite app_nil_r; simpl; now auto
          | eexists [_], [_]; simpl; now auto ].
Qed.

Lemma downloadJob_counts t r w w' :
  downloadJob t w = (r, w') ->
  exists new errors,
    requests w' = new ++ requests w
    /\ downloadErrors w' = downloadErrors w ++ errors
    /\ length errors <= length new <= 1.
Proof.
  unfold_job.
  destruct (downloadBook _ _ _ _) as [[[]|e] w1] eqn:E;
    apply downloadBook_counts in E; simpl in E;
    unfold mret, M_ret; intros [= <- <-]; exact E.
Qed.

(** Each download of the batch is attempted at most once, whatever the
    outcome of the batch: it makes at most as many requests as there are
    downloads, records at most one error per request made, and removes no
    recorded error. *)
Theorem batch_attempts_once tasks r w w' :
  async_each tasks downloadJob w = (r, w') ->
  exists new errors,
    requests w' = new ++ requests w
    /\ downloadErrors w' = downloadErrors w ++ errors
    /\ length errors <= length new <= length tasks.
Proof.
  revert w. induction tasks as [|t rest IH]; intros w; simpl.
  - intros [= <- <-]. exists [], []. rewrite app_nil_r. simpl. auto.
  - unfold mbind, M_bind.
    destruct (downloadJob t w) as [[[]|e] w1] eqn:E1;
      apply downloadJob_counts in E1 as (new1 & errors1 & Hr1 & He1 & Hl1).
    + intros E. apply IH in E as (new & errors & Hr & He & Hl).
      exists (new ++ new1), (errors1 ++ errors).
      rewrite Hr, Hr1, He, He1, !length_app, <- !app_assoc.
      split; [reflexivity|]. split; [reflexivity|]. lia.
    + intros [= <- <-]. exists new1, errors1. split; [exact Hr1|].
      split; [exact He1|]. lia.
Qed.

End Batch.

(** ** Instances on the concrete environment *)

Lemma checkSignatureMatch_one_digest_witness :
  Demo.checkSignatureMatch "download/Bundle/Book.epub" Demo.resigned_variant
    (Demo.world_with "download/Bundle/Book.epub" "EPUB-BYTES")
  = (Ok (str_eq (Demo.sha1_hex "EPUB-BYTES") "sha1:OTHER"),
     Demo.world_with "download/Bundle/Book.epub" "EPUB-BYTES").
Proof.
  apply (proj1 (checkSignatureMatch_one_digest Demo.sha1_hex Demo.md5_hex
                  "download/Bundle/Book.epub" Demo.resigned_variant "EPUB-BYTES"
                  (Demo.world_with "download/Bundle/Book.epub" "EPUB-BYTES") eq_refl));
    [reflexivity | discriminate].
Defined.


Lemma rerun_requests_nothing_witness :
  exists w',
    Demo.main_from_bundles Demo.catalog (Demo.world_with "download/Books/Book.epub" "EPUB-BYTES")
    = (ExitNormally, w')
    /\ same_but_console (Demo.world_with "download/Books/Book.epub" "EPUB-BYTES") w'.
Proof.
  eapply (rerun_requests_nothing Demo.sha1_hex Demo.md5_hex Demo.sanitizeFilename
            Demo.path_resolve Demo.trim Demo.remote Demo.options Demo.catalog).
  - reflexivity.
  - intros t [<-|[]]. exists "EPUB", "EPUB-BYTES". repeat split; reflexivity.
Defined.


Lemma batch_attempts_once_witness :
  exists new errors,
    requests (snd (async_each Demo.failing_tasks Demo.downloadJob Demo.empty_world))
    = new ++ requests Demo.empty_world
    /\ downloadErrors (snd (async_each Demo.failing_tasks Demo.downloadJob Demo.empty_world))
       = downloadErrors Demo.empty_world ++ errors
    /\ length errors <= length new <= length Demo.failing_tasks.
Proof.
  apply (batch_attempts_once Demo.sha1_hex Demo.md5_hex Demo.sanitizeFilename
           Demo.path_resolve Demo.trim Demo.remote Demo.options
           Demo.failing_tasks _ Demo.empty_world _ (surjective_pairing _)).
Defined.

(** ** The selection of [displayOrders] *)

(** [displayOrders] returns exactly the orders whose name was ticked, in
    the order of the catalogue (not the sorted order of the prompt); orders
    that share a name are taken or left together; ticking every name gives
    back the whole catalogue. *)
Theorem displayOrders_selects_by_name (answers : list string) (orders : list Order) :
  (forall o, In o (displayOrders_selected answers orders) <->
     In o orders /\ In (o_human_name o) answers)
  /\ (forall o1 o2,
        In o1 (displayOrders_selected answers orders) -> In o2 orders ->
        o_human_name o2 = o_human_name o1 ->
        In o2 (displayOrders_selected answers orders))
  /\ sublist (displayOrders_selected answers orders) orders
  /\ ((forall o, In o orders -> In (o_human_name o) answers) ->
      displayOrders_selected answers orders = orders).
Proof.
  assert (H : forall o, In o (displayOrders_selected answers orders) <->
                In o orders /\ In (o_human_name o) answers).
  { intros o. unfold displayOrders_selected. now rewrite filter_In, includes_In. }
  split; [exact H|]. split; [|split].
  - intros o1 o2 H1 H2 E. apply H. apply H in H1 as [_ H1]. rewrite E. tauto.
  - clear H. unfold displayOrders_selected. induction orders as [|o rest IH]; simpl.
    + constructor.
    + destruct (includes answers (o_human_name o)); now constructor.
  - clear H. unfold displayOrders_selected. induction orders as [|o rest IH]; simpl;
      [reflexivity|]. intros Hall.
    rewrite (proj2 (includes_In _ _) (Hall o (or_introl eq_refl))).
    f_equal. apply IH. intros o' Ho'. apply Hall. now right.
Qed.

Lemma displayOrders_selects_by_name_witness :
  displayOrders_selected ["Books"; "Music"] Demo.catalog = Demo.catalog.
Proof.
  apply (proj2 (proj2 (proj2 (displayOrders_selects_by_name ["Books"; "Music"]
                                Demo.catalog)))).
  intros o [<-|[<-|[]]]; simpl; tauto.
Defined.

(** ** The whole of [fetchOrders] *)

Lemma async_concat_inr {A B E} (iteratee : A -> E + B) (l : list A) (bs : list B) :
  async_concat l iteratee = inr bs <-> Forall2 (fun x b => iteratee x = inr b) l bs.
Proof.
  revert bs. induction l as [|x rest IH]; intros bs; simpl.
  - split; [intros [= <-]; constructor | intros H; now inversion H].
  - destruct (iteratee x) as [e|b] eqn:Ex.
    + split; [discriminate | intros H; inversion H; congruence].
    + destruct (async_concat rest iteratee) as [e|bs'] eqn:Er.
      * split; [discriminate|]. intros H. inversion H as [|? b' ? bs'' Hb Hr]; subst.
        apply IH in Hr. discriminate.
      * split.
        -- intros [= <-]. constructor; [exact Ex | now apply IH].
        -- intros H. inversion H as [|? b' ? bs'' Hb Hr]; subst.
           apply IH in Hr. congruence.
Qed.

Lemma async_concat_inl {A B E} (iteratee : A -> E + B) (l : list A) x e :
  In x l -> iteratee x = inl e -> exists e', async_concat l iteratee = inl e'.
Proof.
  induction l as [|y rest IH]; simpl; [tauto|]. intros [->|Hx] Ex.
  - rewrite Ex. eauto.
  - destruct (iteratee y); [eauto|]. destruct (IH Hx Ex) as [e' ->]. eauto.
Qed.

(** [fetchOrders] is all or nothing: it returns orders exactly when the
    listing and the details of every listed order are answered with a
    success status and a body that parses, and it then returns the retained
    ones among these details, in the order of the listing; one order whose
    details fail makes the whole call fail. *)
Theorem fetchOrders_all_or_nothing (listing : Api (list Stub))
    (service : string -> Api (option Order)) :
  (forall orders,
     fetchOrders listing service = inr orders <->
     exists st ordersData detailedOrders,
       listing = ApiAnswers st (Some ordersData) /\ status_ok st = true
       /\ Forall2 (fun item details => fetchOrderDetails service item = inr details)
            ordersData detailedOrders
       /\ orders = filterOrders detailedOrders)
  /\ (forall st ordersData item e,
        listing = ApiAnswers st (Some ordersData) -> In item ordersData ->
        fetchOrderDetails service item = inl e ->
        exists e', fetchOrders listing service = inl e').
Proof.
  split.
  - intros orders. unfold fetchOrders. split.
    + destruct listing as [|st [ordersData|]]; try discriminate;
        destruct (status_ok st) eqn:Eo; simpl; try discriminate.
      destruct (async_concat ordersData (fetchOrderDetails service))
        as [e|detailedOrders] eqn:Ec; [discriminate|].
      intros [= <-]. apply async_concat_inr in Ec.
      exists st, ordersData, detailedOrders. tauto.
    + intros (st & ordersData & detailedOrders & -> & Eo & Hd & ->).
      rewrite Eo; simpl. apply async_concat_inr in Hd. now rewrite Hd.
  - intros st ordersData item e -> Hi He. unfold fetchOrders.
    destruct (status_ok st); simpl; [|eauto].
    destruct (async_concat_inl _ _ _ _ Hi He) as [e' ->]. eauto.
Qed.

(** ** [validateSession] *)

Lemma strip_trailing_quote_app (s : string) :
  strip_trailing_quote (s ++ String quote EmptyString) = s.
Proof.
  induction s as [|c rest IH]; simpl; [reflexivity|].
  rewrite IH. destruct rest; reflexivity.
Qed.

Lemma replace_outer_quotes_quoted (s : string) : replace_outer_quotes (quoted s) = s.
Proof. unfold replace_outer_quotes, quoted. simpl. apply strip_trailing_quote_app. Qed.

(** [main] never calls [authenticate]: [validateSession] either throws or
    returns a session that is not empty, and it returns one only when the
    service answered the request made with that session by status 200 and
    a body. *)
Theorem interactive_login_is_unreachable (i : SessionInputs) (service : string -> Api bool) :
  (exists e, main_session i service = LoginFails e)
  \/ (exists session,
        main_session i service = LoggedIn session /\ session <> ""
        /\ service session = ApiAnswers 200 (Some true)).
Proof.
  unfold main_session, validateSession.
  assert (Hs : forall session, session_to_validate i = inr session ->
                 truthy (Some session) = true).
  { unfold session_to_validate. intros session.
    destruct (truthy (options_authToken i)); simpl.
    - destruct (commander_authToken i); [|discriminate]. now intros [= <-].
    - destruct (truthy (config_session i)) eqn:Et; simpl; [|discriminate].
      destruct (truthy (config_expirationDate i)); simpl; [|discriminate].
      destruct (expirationDate_lt_now i); [discriminate|].
      intros [= <-]. now destruct (config_session i). }
  destruct (session_to_validate i) as [e|session]; [eauto|].
  specialize (Hs session eq_refl).
  destruct (service session) as [|st [[]|]] eqn:Es; cbn [negb]; cbv iota; eauto.
  destruct (st =? 200)%Z eqn:E200.
  - right. exists session. rewrite Hs. cbn [negb]. cbv iota.
    apply Z.eqb_eq in E200. subst st.
    split; [reflexivity|]. split; [|exact Es].
    intros ->. discriminate Hs.
  - left. destruct ((st =? 401)%Z && negb (truthy (options_authToken i))); eauto.
Qed.

(** A token given between double quotes is used as it is, and a token
    given without is put between double quotes: the outer quotes are
    stripped before the token is quoted. *)
Theorem authToken_is_quoted_once (i : SessionInputs) (token : string) :
  truthy (options_authToken i) = true ->
  (commander_authToken i = Some (quoted token) ->
   session_to_validate i = inr (quoted token))
  /\ (commander_authToken i = Some token -> replace_outer_quotes token = token ->
      session_to_validate i = inr (quoted token)).
Proof.
  intros Ht. unfold session_to_validate. rewrite Ht. simpl negb. cbv iota.
  split.
  - intros ->. now rewrite replace_outer_quotes_quoted.
  - intros -> ->. reflexivity.
Qed.

Lemma authToken_is_quoted_once_witness :
  session_to_validate
    {| options_authToken := Some "abc"; commander_authToken := Some (quoted "abc");
       config_session := None; config_expirationDate := None;
       expirationDate_lt_now := false |}
  = inr (quoted "abc").
Proof.
  apply (proj1 (authToken_is_quoted_once
                  {| options_authToken := Some "abc";
                     commander_authToken := Some (quoted "abc");
                     config_session := None; config_expirationDate := None;
                     expirationDate_lt_now := false |} "abc" eq_refl)).
  reflexivity.
Defined.

(** ** The configuration file *)

(** With the file system as [getConfigPath] saw it, [loadConfig] never
    falls back on the empty configuration: it loads the file of the home
    directory when there is one, else the file of the working directory,
    and it throws when there is neither. *)
Theorem loadConfig_has_no_default {Config} (parse : string -> option Config)
    (path_resolve : string -> string -> string) (homedir cwd : string)
    (fs : gmap string string) :
  loadConfig parse (getConfigPath path_resolve homedir cwd fs) fs <> EmptyConfig
  /\ (forall data,
        fs !! path_resolve homedir config_file_name = Some data ->
        loadConfig parse (getConfigPath path_resolve homedir cwd fs) fs
        = match parse data with
          | Some config => LoadedConfig config
          | None => LoadFailsOnText
          end)
  /\ (forall data,
        fs !! path_resolve homedir config_file_name = None ->
        fs !! path_resolve cwd config_file_name = Some data ->
        loadConfig parse (getConfigPath path_resolve homedir cwd fs) fs
        = match parse data with
          | Some config => LoadedConfig config
          | None => LoadFailsOnText
          end)
  /\ (fs !! path_resolve homedir config_file_name = None ->
      fs !! path_resolve cwd config_file_name = None ->
      loadConfig parse (getConfigPath path_resolve homedir cwd fs) fs = LoadFailsOnPath).
Proof.
  unfold getConfigPath, loadConfig.
  destruct (fs !! path_resolve homedir config_file_name) as [data|] eqn:Eh.
  - rewrite Eh. split; [now destruct (parse data)|].
    split; [now intros ? [= <-]|]. split; [discriminate|discriminate].
  - destruct (fs !! path_resolve cwd config_file_name) as [data|] eqn:Ec.
    + rewrite Ec. split; [now destruct (parse data)|].
      split; [discriminate|]. split; [now intros ? _ [= <-] | discriminate].
    + split; [discriminate|]. split; [discriminate|]. split; [discriminate|reflexivity].
Qed.

Lemma loadConfig_has_no_default_witness :
  loadConfig (fun _ : string => Some tt)
    (getConfigPath Demo.path_resolve "/home/user" "/work"
       {[ "/work/.humblebundle_ebook_downloader.json" := "{}" ]})
    {[ "/work/.humblebundle_ebook_downloader.json" := "{}" ]}
  = LoadedConfig tt.
Proof.
  apply (proj1 (proj2 (proj2 (loadConfig_has_no_default (fun _ : string => Some tt)
           Demo.path_resolve "/home/user" "/work"
           {[ "/work/.humblebundle_ebook_downloader.json" := "{}" ]})))
           "{}"); reflexivity.
Defined.

Lemma fetchOrders_all_or_nothing_witness :
  exists e',
    fetchOrders (ApiAnswers 200%Z (Some [ {| gamekey := "a" |}; {| gamekey := "b" |} ]))
      (fun u => if str_eq u (order_url "a")
                then ApiAnswers 200%Z (Some (Some (Demo.order "Books" [])))
                else ApiAnswers 500%Z None)
    = inl e'.
Proof.
  apply (proj2 (fetchOrders_all_or_nothing _ _) 200%Z
           [ {| gamekey := "a" |}; {| gamekey := "b" |} ] {| gamekey := "b" |}
           (CouldNotFetchOrders 500%Z) eq_refl).
  - right. now left.
  - reflexivity.
Defined.

(** ** The order of the resolved downloads *)

(** On well-shaped bundles the resolved downloads come in the order of the
    documents: bundle after bundle, and within a bundle subproduct after
    subproduct, download after download, variant after variant, each
    selected variant once for each of its occurrences, after the downloads
    already collected. *)
Theorem resolution_keeps_document_order (options : Options) (bundles : list Order)
    (downloads : list Task) (w : World) :
  forallb well_shaped bundles = true ->
  fst (forBundles options bundles downloads w)
  = Ok (downloads ++ flat_map (spec_bundle_tasks (format options)) bundles).
Proof.
  intros H. destruct (forBundles_ok options bundles downloads w H) as (w' & -> & _).
  reflexivity.
Qed.

Lemma resolution_keeps_document_order_witness :
  fst (forBundles Demo.options Demo.failing_batch [] Demo.empty_world)
  = Ok ([] ++ flat_map (spec_bundle_tasks (format Demo.options)) Demo.failing_batch).
Proof.
  apply (resolution_keeps_document_order Demo.options Demo.failing_batch []
           Demo.empty_world).
  reflexivity.
Defined.

Lemma spec_selected_all format (v : DownloadStruct) :
  spec_selected format v = true -> spec_selected "all" v = true.
Proof.
  unfold spec_selected. intros [-> _]%andb_prop. reflexivity.
Qed.

(** The selector ["all"] resolves every download that any other selector
    resolves: when the loops return downloads for a selector, they return
    downloads for ["all"] too, and these include the former. *)
Theorem selector_all_resolves_most (options all_options : Options)
    (bundles : list Order) (w : World) downloads w' :
  format all_options = "all" ->
  forBundles options bundles [] w = (Ok downloads, w') ->
  exists all_downloads all_w',
    forBundles all_options bundles [] w = (Ok all_downloads, all_w')
    /\ forall t, In t downloads -> In t all_downloads.
Proof.
  intros Ea E. pose proof (forBundles_Ok_inv _ _ _ _ _ _ E) as H.
  destruct (forBundles_ok options bundles [] w H) as (w1 & E1 & _).
  rewrite E1 in E. injection E as <- _.
  destruct (forBundles_ok all_options bundles [] w H) as (w2 & E2 & _).
  eexists _, w2. split; [exact E2|]. simpl. rewrite Ea.
  intros t Ht. apply in_flat_map in Ht as (bundle & Hb & Ht).
  apply in_flat_map. exists bundle. split; [exact Hb|].
  apply spec_bundle_tasks_In in Ht as (sp & v & Henc & Hsel & ->).
  apply spec_bundle_tasks_In. exists sp, v.
  split; [exact Henc|]. split; [|reflexivity]. now apply (spec_selected_all (format options)).
Qed.

Lemma selector_all_resolves_most_witness :
  exists all_downloads all_w',
    forBundles {| downloadFolder := "download"; downloadLimit := 1; format := "all" |}
      Demo.catalog [] Demo.empty_world = (Ok all_downloads, all_w')
    /\ forall t,
         In t [ {| t_bundle := "Books"; t_download := Demo.ok_variant; t_name := "Book" |} ] ->
         In t all_downloads.
Proof.
  eapply (selector_all_resolves_most Demo.options
            {| downloadFolder := "download"; downloadLimit := 1; format := "all" |}
            Demo.catalog Demo.empty_world); reflexivity.
Defined.

(** ** Transfers over a stale file and without an answer *)

Section Transfers.

Variable sha1_hex md5_hex : string -> string.
Variable sanitizeFilename : string -> string.
Variable path_resolve : string -> string -> string.
Variable trim : string -> string.
Variable remote : string -> FetchOutcome.
Variable options : Options.

Ltac unfold_downloadBook En Ec Eu :=
  unfold downloadBook;
  unfold mbind, M_bind, ensureFolderCreated, mret, M_ret, liftR;
  rewrite En; simpl; rewrite Ec;
  unfold try_catch, url_web, fetch, downloadFile, pipe_to_file,
    handleFileDownloadError, response_in_catch_block, url_web, throw,
    downloadErrors_push, console_log, fs_unlink;
  unfold mbind, M_bind, mret, M_ret, liftR; rewrite Eu; simpl.

Local Abbreviation downloadBook :=
  (downloadBook sha1_hex md5_hex sanitizeFilename path_resolve trim remote options).
Local Abbreviation destination :=
  (destination sanitizeFilename path_resolve trim options).

(** A file at the destination whose digest is not the advertised checksum
    is fetched again and replaced: when its asset is served whole,
    [downloadBook] requests it once, writes the delivered body over the
    file, records no error and does not report a skip. *)
Theorem stale_file_is_replaced bundle name download label url r content w :
  ds_name download = Some label -> ds_url download = Some url ->
  files w !! destination bundle name label = Some content ->
  verified sha1_hex md5_hex download content = false ->
  remote (web url) = Responds r -> ok r = true -> ends (body r) = true ->
  downloadBook bundle name download w
  = (Ok false,
     {| files := <[destination bundle name label := delivered (body r)]> (files w);
        downloadErrors := downloadErrors w;
        requests := web url :: requests w;
        console := console w |}).
Proof.
  intros En Eu Ef Ev Er Eo Ee.
  pose proof (checkSignatureMatch_file sha1_hex md5_hex _ download _ _ Ef) as Ec.
  rewrite Ev in Ec. unfold_downloadBook En Ec Eu. rewrite Er, Eo; simpl. now rewrite Ee.
Qed.

(** A request that gets no answer at all ([fetch] rejects): [downloadBook]
    throws the [ReferenceError] of its [catch] block, not the error of the
    request; no error is recorded and no file changes. *)
Theorem unanswered_request_is_not_recorded bundle name download label url w :
  ds_name download = Some label -> ds_url download = Some url ->
  checkSignatureMatch sha1_hex md5_hex (destination bundle name label) download w
  = (Ok false, w) ->
  remote (web url) = Rejects ->
  downloadBook bundle name download w
  = (Throw (ReferenceError "response"),
     {| files := files w;
        downloadErrors := downloadErrors w;
        requests := web url :: requests w;
        console := console w |}).
Proof.
  intros En Eu Ec Er. unfold_downloadBook En Ec Eu. now rewrite Er.
Qed.

End Transfers.

Lemma stale_file_is_replaced_witness :
  Demo.downloadBook "Bundle" "Book" Demo.ok_variant
    (Demo.world_with "download/Bundle/Book.epub" "stale")
  = (Ok false,
     {| files := <["download/Bundle/Book.epub" := "EPUB-BYTES"]>
                   (files (Demo.world_with "download/Bundle/Book.epub" "stale"));
        downloadErrors := [];
        requests := ["https://dl/ok.epub"];
        console := [] |}).
Proof.
  apply (stale_file_is_replaced Demo.sha1_hex Demo.md5_hex Demo.sanitizeFilename
           Demo.path_resolve Demo.trim Demo.remote Demo.options
           "Bundle" "Book" Demo.ok_variant "EPUB" {| web := "https://dl/ok.epub" |}
           {| status := 200; statusText := "OK";
              body := {| delivered := "EPUB-BYTES"; ends := true |} |}
           "stale" (Demo.world_with "download/Bundle/Book.epub" "stale"));
    reflexivity.
Defined.

Lemma unanswered_request_is_not_recorded_witness :
  Demo.downloadBook "Bundle" "Book"
    (Demo.variant "EPUB" "https://nowhere/x.epub" None None) Demo.empty_world
  = (Throw (ReferenceError "response"),
     {| files := files Demo.empty_world;
        downloadErrors := [];
        requests := ["https://nowhere/x.epub"];
        console := [] |}).
Proof.
  apply (unanswered_request_is_not_recorded Demo.sha1_hex Demo.md5_hex
           Demo.sanitizeFilename Demo.path_resolve Demo.trim Demo.remote Demo.options
           "Bundle" "Book" (Demo.variant "EPUB" "https://nowhere/x.epub" None None)
           "EPUB" {| web := "https://nowhere/x.epub" |} Demo.empty_world);
    reflexivity.
Defined.
